(** * one-hub: the Claude provider adapter and the LinuxDo OAuth controller

    A shallow embedding of [controller/linuxdo.go] and of the Claude provider
    ([providers/claude]): the custom-parameter merge engine, the role and
    finish-reason tables, URL resolution, vendor-error decoding, and the
    OAuth login handler with its external calls made explicit. *)

From Stdlib Require Import Floats.
From stdpp Require Import gmap strings list fin_maps pretty.

Set Warnings "-register-all".
Set Default Proof Using "Type".

(** * Dynamic values

    A Go [interface{}] holding what [encoding/json] produces when it decodes
    into [map[string]interface{}]: nil, bool, float64, string, a slice, or a
    nested map. *)

Inductive value : Type :=
| VNil
| VBool (b : bool)
| VNumber (f : float)
| VString (s : string)
| VArray (l : list value)
| VObject (m : gmap string value).

(** [v.(bool)] with the comma-ok form. *)
Definition asBool (v : value) : option bool :=
  match v with VBool b => Some b | _ => None end.

(** [v.(string)] with the comma-ok form. *)
Definition asString (v : value) : option string :=
  match v with VString s => Some s | _ => None end.

(** [v.(map[string]interface{})] with the comma-ok form. *)
Definition asObject (v : value) : option (gmap string value) :=
  match v with VObject m => Some m | _ => None end.

(** * Canonical protocol constants *)

Module types.

(** Modelled from the spec: the constants of package [types], which the
    adapter refers to by name; their values are the canonical vocabulary
    of the finish-reason and role tables. *)
Definition FinishReasonStop : string := "stop".
Definition FinishReasonLength : string := "length".
Definition FinishReasonToolCalls : string := "tool_calls".
Definition FinishReasonContentFilter : string := "content_filter".

(** Modelled from the spec: the role constants of package [types]. *)
Definition ChatMessageRoleUser : string := "user".
Definition ChatMessageRoleAssistant : string := "assistant".
Definition ChatMessageRoleSystem : string := "system".
Definition ChatMessageRoleTool : string := "tool".
Definition ChatMessageRoleFunction : string := "function".

(** Modelled from the spec: the normalized error [types.OpenAIError], with
    the three fields [{message, type, code}] the adapter fills. *)
Record OpenAIError : Type := mkOpenAIError {
  Message : string;
  Type_ : string;
  Code : string
}.

End types.

(** * Go's [strings] helpers, on byte strings *)

Module strings.

(** [len(s) >= len(prefix) && s[:len(prefix)] == prefix] *)
Definition HasPrefix (s prefix : string) : bool :=
  (String.length prefix <=? String.length s)%nat
  && String.eqb (String.substring 0 (String.length prefix) s) prefix.

(** [len(s) >= len(suffix) && s[len(s)-len(suffix):] == suffix] *)
Definition HasSuffix (s suffix : string) : bool :=
  (String.length suffix <=? String.length s)%nat
  && String.eqb
       (String.substring (String.length s - String.length suffix)
          (String.length suffix) s)
       suffix.

(** [if HasPrefix(s, prefix) { return s[len(prefix):] }; return s] *)
Definition TrimPrefix (s prefix : string) : string :=
  if HasPrefix s prefix
  then String.substring (String.length prefix)
         (String.length s - String.length prefix) s
  else s.

(** [if HasSuffix(s, suffix) { return s[:len(s)-len(suffix)] }; return s] *)
Definition TrimSuffix (s suffix : string) : string :=
  if HasSuffix s suffix
  then String.substring 0 (String.length s - String.length suffix) s
  else s.

End strings.

(** * The Claude provider *)

Module claude.

(** ** Finish reasons and roles *)

Definition stopReasonClaude2OpenAI (reason : string) : string :=
  if bool_decide (reason = "end_turn") || bool_decide (reason = "stop_sequence")
  then types.FinishReasonStop
  else if bool_decide (reason = "max_tokens") then types.FinishReasonLength
  else if bool_decide (reason = "tool_use") then types.FinishReasonToolCalls
  else if bool_decide (reason = "refusal") then types.FinishReasonContentFilter
  else reason.

Definition convertRole (role : string) : string :=
  if bool_decide (role = types.ChatMessageRoleUser)
     || bool_decide (role = types.ChatMessageRoleTool)
     || bool_decide (role = types.ChatMessageRoleFunction)
  then types.ChatMessageRoleUser
  else types.ChatMessageRoleAssistant.

(** ** The custom-parameter merge engine *)

(** The keys the final loop skips. *)
Definition isControlKey (key : string) : bool :=
  bool_decide (key = "stream") || bool_decide (key = "overwrite")
  || bool_decide (key = "per_model") || bool_decide (key = "pre_add").

(** [shouldOverwrite]: false unless ["overwrite"] holds a bool. *)
Definition shouldOverwrite (customParams : gmap string value) : bool :=
  match customParams !! "overwrite" with
  | Some overwriteValue =>
      match asBool overwriteValue with
      | Some boolValue => boolValue
      | None => false
      end
  | None => false
  end.

(** [preAdd, exists := customParams["pre_add"]; exists && preAdd == true]:
    comparing an interface with the constant [true] holds only for a bool
    whose value is true. *)
Definition preAddSet (customParams : gmap string value) : bool :=
  match customParams !! "pre_add" with
  | Some (VBool true) => true
  | _ => false
  end.

(** [perModel]: false unless ["per_model"] holds a bool. *)
Definition perModel (customParams : gmap string value) : bool :=
  match customParams !! "per_model" with
  | Some perModelValue =>
      match asBool perModelValue with
      | Some boolValue => boolValue
      | None => false
      end
  | None => false
  end.

(** The active parameter set, [customParamsModel]: the spec itself, or,
    under [per_model] and with a string ["model"] in the request, the
    sub-map of that model (empty when there is none). A request whose
    ["model"] is missing or not a string leaves the spec itself active. *)
Definition customParamsModel
    (requestMap customParams : gmap string value) : gmap string value :=
  if perModel customParams then
    match requestMap !! "model" ≫= asString with
    | Some modelValue =>
        match customParams !! modelValue with
        | Some v =>
            match asObject v with
            | Some modelConfig => modelConfig
            | None => ∅
            end
        | None => ∅
        end
    | None => customParams
    end
  else customParams.

(** One iteration of the loop body on [requestMap]. *)
Definition mergeEntry (overwrite : bool) (requestMap : gmap string value)
    (key : string) (v : value) : gmap string value :=
  if isControlKey key then requestMap
  else if overwrite then <[key := v]> requestMap
  else match requestMap !! key with
       | Some _ => requestMap
       | None => <[key := v]> requestMap
       end.

(** [for key, value := range ...] over the entries in the order the
    runtime happens to enumerate them. *)
Fixpoint rangeLoop (overwrite : bool) (entries : list (string * value))
    (requestMap : gmap string value) : gmap string value :=
  match entries with
  | [] => requestMap
  | (key, v) :: rest => rangeLoop overwrite rest (mergeEntry overwrite requestMap key v)
  end.

(** [mergeCustomParams]: the request map after the call (it is updated in
    place and returned). *)
Definition mergeCustomParams
    (requestMap customParams : gmap string value) : gmap string value :=
  let overwrite := shouldOverwrite customParams in
  if preAddSet customParams then requestMap
  else
    rangeLoop overwrite
      (map_to_list (customParamsModel requestMap customParams)) requestMap.

(** ** Static configuration and URL resolution *)

Record ProviderConfig : Type := mkProviderConfig {
  BaseURL : string;
  ChatCompletions : string;
  ModelList : string
}.

Definition getConfig : ProviderConfig :=
  {| BaseURL := "https://api.anthropic.com";
     ChatCompletions := "/v1/messages";
     ModelList := "/v1/models" |}.

(** The part of a channel record the adapter reads here: the credential
    and the base-URL override (empty when none is set). *)
Record Channel : Type := mkChannel {
  Key : string;
  ChannelBaseURL : string
}.

Record ClaudeProvider : Type := mkClaudeProvider {
  Config : ProviderConfig;
  Channel_ : Channel
}.

(** [ClaudeProviderFactory.Create]: wiring only. *)
Definition Create (channel : Channel) : ClaudeProvider :=
  {| Config := getConfig; Channel_ := channel |}.

(** Modelled from the spec: [BaseProvider.GetBaseURL], of package [base]:
    the effective base URL is the channel's override if set, else the
    vendor's static default. *)
Definition GetBaseURL (p : ClaudeProvider) : string :=
  if bool_decide (ChannelBaseURL (Channel_ p) = "")
  then BaseURL (Config p)
  else ChannelBaseURL (Channel_ p).

Definition cloudflareGateway : string := "https://gateway.ai.cloudflare.com".

Definition GetFullRequestURL (p : ClaudeProvider) (requestURL : string) : string :=
  let baseURL := strings.TrimSuffix (GetBaseURL p) "/" in
  let requestURL :=
    if strings.HasPrefix baseURL cloudflareGateway
    then strings.TrimPrefix requestURL "/v1"
    else requestURL in
  baseURL +:+ requestURL.

(** ** Vendor errors *)

(** Modelled from the spec: the vendor error envelope [ClaudeError] of the
    package's type declarations: a top-level error-kind field and an inner
    error with a sub-type and a message. *)
Record ClaudeErrorInfo : Type := mkClaudeErrorInfo {
  InfoType : string;
  InfoMessage : string
}.

Record ClaudeError : Type := mkClaudeError {
  ErrType : string;
  ErrorInfo : ClaudeErrorInfo
}.

(** [errorHandle]; the argument is a pointer, [None] being nil. *)
Definition errorHandle (claudeError : option ClaudeError) : option types.OpenAIError :=
  match claudeError with
  | None => None
  | Some e =>
      if bool_decide (ErrType e = "") then None
      else Some {| types.Message := InfoMessage (ErrorInfo e);
                   types.Type_ := InfoType (ErrorInfo e);
                   types.Code := ErrType e |}
  end.

Section Decode.

(** [json.NewDecoder(body).Decode(&ClaudeError{})] of [encoding/json]:
    the decoded envelope, or [None] when it reports an error. *)
Variable jsonDecode : string -> option ClaudeError.

(** [RequestErrorHandle] on the body of a non-success response. *)
Definition RequestErrorHandle (body : string) : option types.OpenAIError :=
  match jsonDecode body with
  | None => None
  | Some claudeError => errorHandle (Some claudeError)
  end.

End Decode.

End claude.

(** * The LinuxDo OAuth controller *)

Module controller.

(** ** Errors, results and the external world *)

(** A Go [error], by its message. *)
Definition error : Type := string.

(** A [(T, error)] pair of which exactly one side is meaningful. *)
Inductive result (A : Type) : Type :=
| Ok (a : A)
| Err (e : error).
Arguments Ok {A} a.
Arguments Err {A} e.

(** An outbound request: method, URL, headers, and the form it posts (in
    the key order [url.Values.Encode] emits). *)
Record Request : Type := mkRequest {
  Method : string;
  URL : string;
  Header : list (string * string);
  Form : list (string * string)
}.

Record Response : Type := mkResponse {
  StatusCode : Z;
  Body : string
}.

Record LinuxDoOAuthResponse : Type := mkLinuxDoOAuthResponse {
  AccessToken : string;
  TokenType : string;
  Scope : string
}.

Record LinuxDoUser : Type := mkLinuxDoUser {
  Id : Z;
  Username : string;
  Name : string;
  AvatarTemplate : string;
  Active : bool;
  TrustLevel : Z
}.

(** The fields of [model.User] the controller reads or writes. *)
Record User : Type := mkUser {
  UserId : Z;
  UserUsername : string;
  UserDisplayName : string;
  UserLinuxDoId : string;
  UserRole : Z;
  UserStatus : Z;
  UserInviterId : Z;
  UserAvatarUrl : string
}.

(** Package [config], as the controller sees it. *)
Record Config : Type := mkConfig {
  LinuxDoClientId : string;
  LinuxDoClientSecret : string;
  LinuxDoOAuthEnabled : bool;
  RegisterEnabled : bool;
  RoleCommonUser : Z;
  UserStatusEnabled : Z
}.

(** What a session slot holds: a Go value of some dynamic type. *)
Inductive sessionValue : Type :=
| SString (s : string)
| SInt (n : Z)
| SOther.

(** The request context: query parameters ([""] when missing) and the
    session ([None] being nil). *)
Record Context : Type := mkContext {
  Query : string -> string;
  SessionGet : string -> option sessionValue
}.

(** Every call that leaves the controller. *)
Inductive Event : Type :=
| ClientDo (req : Request)
| SysError (msg : string)
| IsLinuxDoIdAlreadyTaken (linuxDoId : string)
| FindUserByField (field val : string)
| GetUserIdByAffCode (affCode : string)
| UserInsert (user : User) (inviterId : Z)
| UserFillById (user : User)
| UserUpdate (user : User) (updatePassword : bool)
| SetupLogin (user : User)
| CtxJSON (status : Z) (success : bool) (message : string).

(** What each call hands back. Methods with a pointer receiver hand back
    the record as they left it. *)
Definition Resp (e : Event) : Type :=
  match e with
  | ClientDo _ => result Response
  | SysError _ => unit
  | IsLinuxDoIdAlreadyTaken _ => bool
  | FindUserByField _ _ => result (option User)
  | GetUserIdByAffCode _ => Z
  | UserInsert _ _ => option error * User
  | UserFillById _ => option error * User
  | UserUpdate _ _ => option error
  | SetupLogin _ => unit
  | CtxJSON _ _ _ => unit
  end.

(** A handler run: it returns, calls out and continues, or panics. *)
Inductive prog (A : Type) : Type :=
| Ret (a : A)
| Vis (e : Event) (k : Resp e -> prog A)
| Panic.
Arguments Ret {A} a.
Arguments Vis {A} e k.
Arguments Panic {A}.

Fixpoint bind {A B : Type} (p : prog A) (f : A -> prog B) : prog B :=
  match p with
  | Ret a => f a
  | Vis e k => Vis e (fun x => bind (k x) f)
  | Panic => Panic
  end.

Definition call (e : Event) : prog (Resp e) := Vis e Ret.

#[export] Instance prog_ret : MRet prog := @Ret.
#[export] Instance prog_bind : MBind prog := fun A B f p => bind p f.

(** Running a program against a world that answers each call knowing the
    calls made so far; the result is [None] after a panic. *)
Definition World : Type := list Event -> forall e : Event, Resp e.

Fixpoint run {A : Type} (w : World) (trace : list Event) (p : prog A)
    : option A * list Event :=
  match p with
  | Ret a => (Some a, trace)
  | Vis e k => run w (trace ++ [e]) (k (w trace e))
  | Panic => (None, trace)
  end.

Definition isNetwork (e : Event) : bool :=
  match e with ClientDo _ => true | _ => false end.

Definition linuxDoTokenEndpoint : string := "https://connect.linux.do/oauth2/token".
Definition linuxDoUserEndpoint : string := "https://connect.linux.do/api/user".

Definition StatusOK : Z := 200.
Definition StatusForbidden : Z := 403.

(** [strconv.Itoa] *)
Definition Itoa (n : Z) : string := pretty n.

Section Handlers.

(** [json.NewDecoder(res.Body).Decode(&v)] of [encoding/json] for the two
    payloads: the decoded record, or the decoder's error. *)
Variable decodeOAuthResponse : string -> result LinuxDoOAuthResponse.
Variable decodeLinuxDoUser : string -> result LinuxDoUser.

(** Package-level configuration. *)
Variable config : Config.

Definition errUnreachable : error := "无法连接至 LinuxDo 服务器，请稍后重试！".

(** [getLinuxDoUserInfoByCode]. [http.NewRequest] cannot fail on the two
    constant method/URL pairs, so its error branches are not reachable
    and are left out. *)
Definition getLinuxDoUserInfoByCode (code : string) : prog (result LinuxDoUser) :=
  if bool_decide (code = "") then mret (Err "无效的参数")
  else if bool_decide (LinuxDoClientId config = "")
          || bool_decide (LinuxDoClientSecret config = "")
  then mret (Err "LinuxDo OAuth 配置不完整")
  else
    let form := [("client_id", LinuxDoClientId config);
                 ("client_secret", LinuxDoClientSecret config);
                 ("code", code);
                 ("grant_type", "authorization_code")] in
    let req := {| Method := "POST"; URL := linuxDoTokenEndpoint;
                  Header := [("Content-Type", "application/x-www-form-urlencoded");
                             ("Accept", "application/json")];
                  Form := form |} in
    res ← call (ClientDo req);
    match res with
    | Err err =>
        call (SysError ("无法连接至 LinuxDo 服务器(token), err:" +:+ err));;
        mret (Err errUnreachable)
    | Ok res =>
        if negb (bool_decide (StatusCode res = StatusOK))
        then mret (Err errUnreachable)
        else
          match decodeOAuthResponse (Body res) with
          | Err err => mret (Err err)
          | Ok oauthResponse =>
              if bool_decide (AccessToken oauthResponse = "")
              then mret (Err "返回值非法，access_token 为空，请稍后重试！")
              else
                let req2 := {| Method := "GET"; URL := linuxDoUserEndpoint;
                               Header := [("Authorization",
                                           "Bearer " +:+ AccessToken oauthResponse);
                                          ("Accept", "application/json")];
                               Form := [] |} in
                res2 ← call (ClientDo req2);
                match res2 with
                | Err err =>
                    call (SysError ("无法连接至 LinuxDo 服务器(user), err:" +:+ err));;
                    mret (Err errUnreachable)
                | Ok res2 =>
                    if negb (bool_decide (StatusCode res2 = StatusOK))
                    then mret (Err errUnreachable)
                    else
                      match decodeLinuxDoUser (Body res2) with
                      | Err err => mret (Err err)
                      | Ok linuxDoUser =>
                          if bool_decide (Id linuxDoUser = 0%Z)
                          then mret (Err "返回值非法，用户 id 字段为空，请稍后重试！")
                          else mret (Ok linuxDoUser)
                      end
                end
          end
    end.

(** [getUserByLinuxDo]: the user pointer (possibly nil) or an error. *)
Definition getUserByLinuxDo (linuxDoUser : LinuxDoUser) : prog (result (option User)) :=
  let linuxDoId := Itoa (Id linuxDoUser) in
  taken ← call (IsLinuxDoIdAlreadyTaken linuxDoId);
  if (taken : bool) then
    r ← call (FindUserByField "linuxdo_id" linuxDoId);
    match r with
    | Err err => mret (Err err)
    | Ok user => mret (Ok user)
    end
  else mret (Ok None).

Definition fail (message : string) : prog unit :=
  call (CtxJSON StatusOK false message).

Definition msgDisabled : string := "管理员未开启通过 LinuxDo 登录以及注册".

(** [LinuxDoBind] *)
Definition LinuxDoBind (c : Context) : prog unit :=
  if negb (LinuxDoOAuthEnabled config) then fail msgDisabled
  else
    let code := Query c "code" in
    r ← getLinuxDoUserInfoByCode code;
    match r with
    | Err err => fail err
    | Ok linuxDoUser =>
        let linuxDoId := Itoa (Id linuxDoUser) in
        taken ← call (IsLinuxDoIdAlreadyTaken linuxDoId);
        if (taken : bool) then fail "该 LinuxDo 账户已被绑定"
        else
          match SessionGet c "id" with
          | Some (SInt id) =>
              let user := {| UserId := id; UserUsername := ""; UserDisplayName := "";
                             UserLinuxDoId := ""; UserRole := 0; UserStatus := 0;
                             UserInviterId := 0; UserAvatarUrl := "" |}%Z in
              '(err, user) ← call (UserFillById user);
              match err with
              | Some err => fail err
              | None =>
                  let avatar :=
                    if bool_decide (UserAvatarUrl user = "")
                       && negb (bool_decide (AvatarTemplate linuxDoUser = ""))
                    then AvatarTemplate linuxDoUser
                    else UserAvatarUrl user in
                  let user := {| UserId := UserId user;
                                 UserUsername := UserUsername user;
                                 UserDisplayName := UserDisplayName user;
                                 UserLinuxDoId := linuxDoId;
                                 UserRole := UserRole user;
                                 UserStatus := UserStatus user;
                                 UserInviterId := UserInviterId user;
                                 UserAvatarUrl := avatar |} in
                  err ← call (UserUpdate user false);
                  match err with
                  | Some err => fail err
                  | None => call (CtxJSON StatusOK true "bind")
                  end
              end
          | _ => Panic
          end
    end.

(** The guard of [LinuxDoOAuth], left to right with short-circuit:
    [state == "" || session.Get("oauth_state") == nil ||
     state != session.Get("oauth_state").(string)]; the last operand
    panics on a stored value that is not a string. *)
Definition stateRejected (c : Context) : prog bool :=
  let state := Query c "state" in
  if bool_decide (state = "") then mret true
  else match SessionGet c "oauth_state" with
       | None => mret true
       | Some (SString stored) => mret (negb (bool_decide (state = stored)))
       | Some _ => Panic
       end.

(** The registration block of [LinuxDoOAuth], entered when no user was
    found: [None] when the handler has already answered and returned. *)
Definition registerUser (linuxDoUser : LinuxDoUser) (affCode : string)
    : prog (option User) :=
  let linuxDoId := Itoa (Id linuxDoUser) in
  if negb (Active linuxDoUser) || bool_decide (TrustLevel linuxDoUser < 1)%Z
  then fail "LinuxDo 账户未满足注册条件（active=true 且 trust_level>=1）";; mret None
  else if negb (RegisterEnabled config)
  then fail "管理员关闭了新用户注册";; mret None
  else
    inviterId ← (if bool_decide (affCode = "") then mret 0%Z
                 else call (GetUserIdByAffCode affCode));
    let username := "linuxdo_" +:+ linuxDoId in
    let user := {| UserId := 0%Z;
                   UserUsername := username;
                   UserDisplayName :=
                     if bool_decide (Name linuxDoUser = "") then username
                     else Name linuxDoUser;
                   UserLinuxDoId := linuxDoId;
                   UserRole := RoleCommonUser config;
                   UserStatus := UserStatusEnabled config;
                   UserInviterId :=
                     if bool_decide (0 < inviterId)%Z then inviterId else 0%Z;
                   UserAvatarUrl := "" |} in
    '(err, user) ← call (UserInsert user inviterId);
    match err with
    | Some err => fail err;; mret None
    | None => mret (Some user)
    end.

(** [LinuxDoOAuth] *)
Definition LinuxDoOAuth (c : Context) : prog unit :=
  rejected ← stateRejected c;
  if (rejected : bool)
  then call (CtxJSON StatusForbidden false "state is empty or not same")
  else
    match SessionGet c "username" with
    | Some _ => LinuxDoBind c
    | None =>
        if negb (LinuxDoOAuthEnabled config) then fail msgDisabled
        else
          let code := Query c "code" in
          let affCode := Query c "aff" in
          r ← getLinuxDoUserInfoByCode code;
          match r with
          | Err err => fail err
          | Ok linuxDoUser =>
              r ← getUserByLinuxDo linuxDoUser;
              match r with
              | Err err => fail err
              | Ok found =>
                  let linuxDoId := Itoa (Id linuxDoUser) in
                  user ← match found with
                         | None => registerUser linuxDoUser affCode
                         | Some user =>
                             mret (Some {| UserId := UserId user;
                                           UserUsername := UserUsername user;
                                           UserDisplayName := UserDisplayName user;
                                           UserLinuxDoId := linuxDoId;
                                           UserRole := UserRole user;
                                           UserStatus := UserStatus user;
                                           UserInviterId := UserInviterId user;
                                           UserAvatarUrl := UserAvatarUrl user |})
                         end;
                  match user with
                  | None => mret tt
                  | Some user =>
                      if negb (bool_decide (UserStatus user = UserStatusEnabled config))
                      then fail "用户已被封禁"
                      else call (SetupLogin user)
                  end
              end
          end
    end.

End Handlers.

End controller.

(** * Closed forms and sample inputs *)

Module samples.

Import claude.

(** The result of the merge loop, key by key, for an active set [active]. *)
Definition mergedLookup (overwrite : bool) (requestMap active : gmap string value)
    (k : string) : option value :=
  if isControlKey k then requestMap !! k
  else if overwrite
       then match active !! k with Some v => Some v | None => requestMap !! k end
       else match requestMap !! k with Some old => Some old | None => active !! k end.

(** Channels for the URL examples. *)
Definition exampleChannel : Channel :=
  {| Key := "sk-test"; ChannelBaseURL := "https://api.example.com/" |}.

Definition gatewayChannel : Channel :=
  {| Key := "sk-test"; ChannelBaseURL := "https://gateway.ai.cloudflare.com/x/y" |}.

(** An outbound body with a model and a caller-chosen temperature. *)
Definition bodyChat : gmap string value :=
  <["model" := VString "claude-3-opus"]>
    (<["temperature" := VNumber 1%float]>
       (<["stream" := VBool false]> ∅)).

(** A body that carries no ["model"] field, and one whose ["model"] is not a
    string. *)
Definition bodyNoModel : gmap string value :=
  <["max_tokens" := VNumber 1024%float]> ∅.

Definition bodyNumericModel : gmap string value :=
  <["model" := VNumber 3%float]> ∅.

(** Overwriting spec: two tuning knobs and a [stream] entry. *)
Definition specOverwrite : gmap string value :=
  <["overwrite" := VBool true]>
    (<["temperature" := VNumber 0.5%float]>
       (<["top_k" := VNumber 40%float]>
          (<["stream" := VBool true]> ∅))).

(** The same knobs without [overwrite]. *)
Definition specKeep : gmap string value :=
  <["temperature" := VNumber 0.5%float]>
    (<["top_k" := VNumber 40%float]> ∅).

(** A spec marked for the pre-send phase that also asks to overwrite. *)
Definition specPreAdd : gmap string value :=
  <["pre_add" := VBool true]> specOverwrite.

(** A per-model spec with a sub-map for one model only, and a top-level
    knob. *)
Definition specPerModel : gmap string value :=
  <["per_model" := VBool true]>
    (<["claude-3-haiku" := VObject (<["top_k" := VNumber 5%float]> ∅)]>
       (<["top_p" := VNumber 0.75%float]> ∅)).

(** A per-model spec whose entry for the model is not a map. *)
Definition specPerModelScalar : gmap string value :=
  <["per_model" := VBool true]>
    (<["claude-3-opus" := VString "fast"]> ∅).

(** A per-model spec whose sub-map itself carries control keys. *)
Definition specNested : gmap string value :=
  <["per_model" := VBool true]>
    (<["overwrite" := VBool true]>
       (<["claude-3-opus" :=
            VObject (<["stream" := VBool true]>
                       (<["pre_add" := VBool true]>
                          (<["top_k" := VNumber 5%float]> ∅)))]> ∅)).

(** A decoder for three bodies: the vendor's envelope for a rejected key
    (top-level type "error", inner type "authentication_error"), an empty
    object, and anything else, which does not parse. *)
Definition sampleJsonDecode (body : string) : option ClaudeError :=
  if bool_decide (body = "401-body")
  then Some {| ErrType := "error";
               ErrorInfo := {| InfoType := "authentication_error";
                               InfoMessage := "invalid x-api-key" |} |}
  else if bool_decide (body = "{}")
  then Some {| ErrType := ""; ErrorInfo := {| InfoType := ""; InfoMessage := "" |} |}
  else None.

(** ** The controller's collaborators *)

Import controller.

Definition sampleConfig : Config :=
  {| LinuxDoClientId := "client-id";
     LinuxDoClientSecret := "client-secret";
     LinuxDoOAuthEnabled := true;
     RegisterEnabled := true;
     RoleCommonUser := 1;
     UserStatusEnabled := 1 |}.

(** A deployment that never configured the client secret. *)
Definition unconfigured : Config :=
  {| LinuxDoClientId := "client-id";
     LinuxDoClientSecret := "";
     LinuxDoOAuthEnabled := true;
     RegisterEnabled := true;
     RoleCommonUser := 1;
     UserStatusEnabled := 1 |}.

Definition sampleLinuxDoUser : LinuxDoUser :=
  {| Id := 42; Username := "neo"; Name := "Neo"; AvatarTemplate := "";
     Active := true; TrustLevel := 2 |}.

(** Decoders that know the two payloads of the sample identity provider. *)
Definition sampleDecodeOAuth (body : string) : result LinuxDoOAuthResponse :=
  if bool_decide (body = "token-payload")
  then Ok {| AccessToken := "tok"; TokenType := "bearer"; Scope := "user" |}
  else Err "invalid character".

Definition sampleDecodeUser (body : string) : result LinuxDoUser :=
  if bool_decide (body = "user-payload") then Ok sampleLinuxDoUser
  else Err "invalid character".

(** A world whose identity provider answers both requests, whose store knows
    no LinuxDo id yet, and where inserting assigns id 7. *)
Definition sampleWorld : World := fun _ e =>
  match e return Resp e with
  | ClientDo req =>
      if bool_decide (URL req = linuxDoTokenEndpoint)
      then Ok {| StatusCode := 200; Body := "token-payload" |}
      else Ok {| StatusCode := 200; Body := "user-payload" |}
  | SysError _ => tt
  | IsLinuxDoIdAlreadyTaken _ => false
  | FindUserByField _ _ => Ok None
  | GetUserIdByAffCode _ => 0%Z
  | UserInsert user _ =>
      (None, {| UserId := 7; UserUsername := UserUsername user;
                UserDisplayName := UserDisplayName user;
                UserLinuxDoId := UserLinuxDoId user; UserRole := UserRole user;
                UserStatus := UserStatus user; UserInviterId := UserInviterId user;
                UserAvatarUrl := UserAvatarUrl user |})
  | UserFillById user => (None, user)
  | UserUpdate _ _ => None
  | SetupLogin _ => tt
  | CtxJSON _ _ _ => tt
  end.

Definition queryOf (params : list (string * string)) (key : string) : string :=
  default "" (list_to_map (M := gmap string string) params !! key).

Definition sessionOf (slots : list (string * sessionValue)) (key : string)
    : option sessionValue :=
  list_to_map (M := gmap string sessionValue) slots !! key.

(** A callback whose state matches the session. *)
Definition ctxGood : Context :=
  {| Query := queryOf [("state", "s3cr3t"); ("code", "abc")];
     SessionGet := sessionOf [("oauth_state", SString "s3cr3t")] |}.

(** Callbacks with no state, with no stored state, and with a forged state. *)
Definition ctxNoState : Context :=
  {| Query := queryOf [("code", "abc")];
     SessionGet := sessionOf [("oauth_state", SString "s3cr3t")] |}.

Definition ctxNoSession : Context :=
  {| Query := queryOf [("state", "s3cr3t"); ("code", "abc")];
     SessionGet := sessionOf [] |}.

Definition ctxForged : Context :=
  {| Query := queryOf [("state", "guess"); ("code", "abc")];
     SessionGet := sessionOf [("oauth_state", SString "s3cr3t")] |}.

(** A callback into a session whose stored state is a number. *)
Definition ctxForeignState : Context :=
  {| Query := queryOf [("state", "s3cr3t"); ("code", "abc")];
     SessionGet := sessionOf [("oauth_state", SInt 5)] |}.

(** A callback without an authorization code. *)
Definition ctxNoCode : Context :=
  {| Query := queryOf [("state", "s3cr3t")];
     SessionGet := sessionOf [("oauth_state", SString "s3cr3t")] |}.

(** The answer to a rejected callback. *)
Definition forbidden : Event :=
  CtxJSON 403 false "state is empty or not same".

End samples.

(** * More sample inputs for the merge engine *)

Module merge_samples.

Import claude.

(** The non-control entries of an active set: what the loop can install. *)
Definition installable (active : gmap string value) : gmap string value :=
  filter (λ kv, isControlKey kv.1 = false) active.

(** A spec that holds nothing but control keys. *)
Definition specControlOnly : gmap string value :=
  <["overwrite" := VBool true]>
    (<["stream" := VBool true]>
       (<["per_model" := VBool false]> ∅)).

(** A spec whose flags are strings, not bools. *)
Definition specStringFlags : gmap string value :=
  <["overwrite" := VString "true"]>
    (<["pre_add" := VString "true"]>
       (<["per_model" := VString "true"]>
          (<["temperature" := VNumber 0.5%float]> ∅))).

(** A per-model spec with a sub-map for the model of [bodyOpus], a sub-map
    that asks to overwrite, and a top-level knob. *)
Definition specPerModelOpus : gmap string value :=
  <["per_model" := VBool true]>
    (<["claude-3-opus" :=
         VObject (<["top_k" := VNumber 5%float]>
                    (<["overwrite" := VBool true]>
                       (<["temperature" := VNumber 0.25%float]> ∅)))]>
       (<["top_p" := VNumber 0.75%float]> ∅)).

(** An overwriting per-model spec whose sub-map renames the model: merging
    twice walks from one sub-map to the next. *)
Definition specRenaming : gmap string value :=
  <["per_model" := VBool true]>
    (<["overwrite" := VBool true]>
       (<["a" := VObject (<["model" := VString "b"]> (<["x" := VNumber 1%float]> ∅))]>
          (<["b" := VObject (<["y" := VNumber 2%float]> ∅)]> ∅))).

Definition bodyModelA : gmap string value := <["model" := VString "a"]> ∅.

End merge_samples.

(** * Request headers of the Claude provider *)

Module claude_headers.

Import claude.

Section Headers.

(** [BaseProvider.CommonRequestHeaders], of package [base]: it fills in the
    header map it is handed. *)
Variable CommonRequestHeaders : gmap string string → gmap string string.

(** [GetRequestHeaders]; [requestVersion] is what
    [p.Context.Request.Header.Get("anthropic-version")] returns, [""] when
    the caller sent none. *)
Definition GetRequestHeaders (p : ClaudeProvider) (requestVersion : string)
    : gmap string string :=
  let headers := CommonRequestHeaders ∅ in
  let headers := <["x-api-key" := Key (Channel_ p)]> headers in
  let anthropicVersion :=
    if bool_decide (requestVersion = "") then "2023-06-01" else requestVersion in
  <["anthropic-version" := anthropicVersion]> headers.

End Headers.

(** Common headers that try to set the two vendor headers themselves. *)
Definition sampleCommonHeaders (headers : gmap string string) : gmap string string :=
  <["Content-Type" := "application/json"]>
    (<["x-api-key" := "other"]>
       (<["anthropic-version" := ""]> headers)).

(** A decoder for a vendor envelope whose inner fields are empty. *)
Definition sampleBareDecode (body : string) : option ClaudeError :=
  if bool_decide (body = "overloaded")
  then Some {| ErrType := "overloaded_error";
               ErrorInfo := {| InfoType := ""; InfoMessage := "" |} |}
  else None.

End claude_headers.

(** * All executions of a handler *)

Module executions.

Import controller.

(** [allRuns Q trace p]: whatever the world answers, running [p] from
    [trace] ends in a trace and an outcome that satisfy [Q]. *)
Fixpoint allRuns {A : Type} (Q : list Event → option A → Prop)
    (trace : list Event) (p : prog A) : Prop :=
  match p with
  | Ret a => Q trace (Some a)
  | Vis e k => ∀ x : Resp e, allRuns Q (trace ++ [e]) (k x)
  | Panic => Q trace None
  end.

(** The events by which a handler answers its request: a JSON body, or the
    login that [setupLogin] completes. *)
Definition isAnswer (e : Event) : bool :=
  match e with
  | CtxJSON _ _ _ | SetupLogin _ => true
  | _ => false
  end.

(** The events that reach the user store. *)
Definition isStore (e : Event) : bool :=
  match e with
  | IsLinuxDoIdAlreadyTaken _ | FindUserByField _ _ | GetUserIdByAffCode _
  | UserInsert _ _ | UserFillById _ | UserUpdate _ _ => true
  | _ => false
  end.

(** The events that need a verified identity: the store's, and the login. *)
Definition needsIdentity (e : Event) : bool :=
  isStore e || match e with SetupLogin _ => true | _ => false end.

(** A [c.JSON] call of the handlers with [success: true]; what [setupLogin]
    writes is not among these. *)
Definition isSuccess (e : Event) : bool :=
  match e with CtxJSON _ true _ => true | _ => false end.

Definition isUpdate (e : Event) : bool :=
  match e with UserUpdate _ _ => true | _ => false end.



(** The two requests [getLinuxDoUserInfoByCode] builds. *)
Definition tokenRequest (config : Config) (code : string) : Request :=
  {| Method := "POST"; URL := linuxDoTokenEndpoint;
     Header := [("Content-Type", "application/x-www-form-urlencoded");
                ("Accept", "application/json")];
     Form := [("client_id", LinuxDoClientId config);
              ("client_secret", LinuxDoClientSecret config);
              ("code", code);
              ("grant_type", "authorization_code")] |}.

Definition userRequest (accessToken : string) : Request :=
  {| Method := "GET"; URL := linuxDoUserEndpoint;
     Header := [("Authorization", "Bearer " +:+ accessToken);
                ("Accept", "application/json")];
     Form := [] |}.

(** The messages [getLinuxDoUserInfoByCode] words itself. *)
Definition ownErrors : list error :=
  ["无效的参数";
   "LinuxDo OAuth 配置不完整";
   errUnreachable;
   "返回值非法，access_token 为空，请稍后重试！";
   "返回值非法，用户 id 字段为空，请稍后重试！"].

Section InfoContract.

Variable decodeOAuthResponse : string → result LinuxDoOAuthResponse.
Variable decodeLinuxDoUser : string → result LinuxDoUser.
Variable config : Config.
Variable code : string.

(** What holds of each single call [getLinuxDoUserInfoByCode] makes. *)
Definition infoEventOK (e : Event) : Prop :=
  match e with
  | ClientDo req =>
      req = tokenRequest config code
      ∨ ∃ accessToken, req = userRequest accessToken ∧ accessToken ≠ ""
  | SysError _ => True
  | _ => False
  end.

(** What holds of what it returns: it does not panic; a user comes from a
    decoded payload, after both requests; an error is one of its own
    messages or a decoder's. *)
Definition infoResultOK (trace : list Event) (r : option (result LinuxDoUser)) : Prop :=
  match r with
  | None => False
  | Some (Ok linuxDoUser) =>
      Id linuxDoUser ≠ 0%Z
      ∧ ∃ body oauthResponse body2,
          decodeOAuthResponse body = Ok oauthResponse
          ∧ AccessToken oauthResponse ≠ ""
          ∧ decodeLinuxDoUser body2 = Ok linuxDoUser
          ∧ trace = [ClientDo (tokenRequest config code);
                     ClientDo (userRequest (AccessToken oauthResponse))]
  | Some (Err err) =>
      err ∈ ownErrors
      ∨ (∃ body, decodeOAuthResponse body = Err err)
      ∨ (∃ body, decodeLinuxDoUser body = Err err)
  end.

(** What holds of its log: a logged failure is the last thing that happens,
    and the caller is told the generic message. *)
Definition infoLogOK (trace : list Event) (r : option (result LinuxDoUser)) : Prop :=
  ∀ msg, SysError msg ∈ trace →
         last trace = Some (SysError msg) ∧ r = Some (Err errUnreachable).

Definition infoContract (trace : list Event) (r : option (result LinuxDoUser)) : Prop :=
  Forall infoEventOK trace
  ∧ length (List.filter isNetwork trace) ≤ 2
  ∧ infoResultOK trace r
  ∧ infoLogOK trace r.

End InfoContract.

Section Contracts.

Variable decodeLinuxDoUser : string → result LinuxDoUser.
Variable config : Config.
Variable c : Context.

(** The callback carries the state the session stored. *)
Definition stateMatches : Prop :=
  Query c "state" ≠ ""
  ∧ SessionGet c "oauth_state" = Some (SString (Query c "state")).

(** [linuxDoId] is the decimal id of an identity the user endpoint's
    payload decoded to. *)
Definition vouched (linuxDoId : string) : Prop :=
  ∃ body linuxDoUser,
    decodeLinuxDoUser body = Ok linuxDoUser
    ∧ Id linuxDoUser ≠ 0%Z
    ∧ linuxDoId = Itoa (Id linuxDoUser).

(** What holds of a user record handed to [Insert], and of the inviter id
    passed with it. *)
Definition freshUser (user : User) (inviterId : Z) : Prop :=
  RegisterEnabled config = true
  ∧ UserId user = 0%Z
  ∧ UserRole user = RoleCommonUser config
  ∧ UserStatus user = UserStatusEnabled config
  ∧ UserUsername user = "linuxdo_" +:+ UserLinuxDoId user
  ∧ UserDisplayName user ≠ ""
  ∧ ((0 < inviterId ∧ UserInviterId user = inviterId)
     ∨ (inviterId ≤ 0 ∧ UserInviterId user = 0))%Z
  ∧ ∃ body linuxDoUser,
      decodeLinuxDoUser body = Ok linuxDoUser
      ∧ Active linuxDoUser = true
      ∧ (1 ≤ TrustLevel linuxDoUser)%Z
      ∧ UserLinuxDoId user = Itoa (Id linuxDoUser).

(** What holds of each single call [LinuxDoOAuth] makes. *)
Definition eventOK (e : Event) : Prop :=
  match e with
  | CtxJSON status success message =>
      (status = 403%Z ∧ success = false ∧ ¬ stateMatches)
      ∨ (status = 200%Z ∧ stateMatches
         ∧ (success = true →
            message = "bind" ∧ SessionGet c "username" ≠ None
            ∧ LinuxDoOAuthEnabled config = true))
  | _ =>
      stateMatches ∧ LinuxDoOAuthEnabled config = true
      ∧ match e with
        | ClientDo req =>
            req = tokenRequest config (Query c "code")
            ∨ ∃ accessToken, req = userRequest accessToken ∧ accessToken ≠ ""
        | SysError _ => True
        | IsLinuxDoIdAlreadyTaken linuxDoId => vouched linuxDoId
        | FindUserByField field val =>
            field = "linuxdo_id" ∧ vouched val ∧ SessionGet c "username" = None
        | GetUserIdByAffCode affCode =>
            affCode = Query c "aff" ∧ affCode ≠ "" ∧ SessionGet c "username" = None
        | UserInsert user inviterId =>
            freshUser user inviterId ∧ SessionGet c "username" = None
        | UserFillById user =>
            SessionGet c "username" ≠ None
            ∧ SessionGet c "id" = Some (SInt (UserId user))
        | UserUpdate user updatePassword =>
            updatePassword = false ∧ SessionGet c "username" ≠ None
            ∧ vouched (UserLinuxDoId user)
        | SetupLogin user =>
            UserStatus user = UserStatusEnabled config
            ∧ SessionGet c "username" = None
        | CtxJSON _ _ _ => True
        end
  end.

(** What holds of a whole run of [LinuxDoOAuth]: it answers once, as its
    last act, unless it panics, and then it has not answered; it makes at
    most two network calls; it reaches the store, or logs in, only after
    both; and it reports success only after an update. *)
Definition traceOK (trace : list Event) (r : option unit) : Prop :=
  match r with
  | Some _ =>
      (∃ a, last trace = Some a ∧ isAnswer a = true)
      ∧ length (List.filter isAnswer trace) = 1
  | None => List.filter isAnswer trace = []
  end
  ∧ length (List.filter isNetwork trace) ≤ 2
  ∧ (List.existsb needsIdentity trace = true →
     ∃ accessToken rest,
       trace = ClientDo (tokenRequest config (Query c "code"))
               :: ClientDo (userRequest accessToken) :: rest
       ∧ accessToken ≠ "")
  ∧ (List.existsb isSuccess trace = true → List.existsb isUpdate trace = true).

Definition oauthContract (trace : list Event) (r : option unit) : Prop :=
  Forall eventOK trace ∧ traceOK trace r.

End Contracts.

(** ** Sample collaborators for the handlers *)

Import samples.

(** An identity provider that cannot be reached. *)
Definition worldDown : World := fun trace e =>
  match e as e' return Resp e' with
  | ClientDo _ => Err "dial tcp: connection refused"
  | e' => sampleWorld trace e'
  end.

(** A deployment with LinuxDo login switched off. *)
Definition configDisabled : Config :=
  {| LinuxDoClientId := "client-id";
     LinuxDoClientSecret := "client-secret";
     LinuxDoOAuthEnabled := false;
     RegisterEnabled := true;
     RoleCommonUser := 1;
     UserStatusEnabled := 1 |}.

(** A callback in the session of a user who is logged in as user 7. *)
Definition ctxBind : Context :=
  {| Query := queryOf [("state", "s3cr3t"); ("code", "abc")];
     SessionGet := sessionOf [("oauth_state", SString "s3cr3t");
                              ("username", SString "neo");
                              ("id", SInt 7)] |}.

(** The record [sampleWorld] hands back for a new registration. *)
Definition sampleNewUser : User :=
  {| UserId := 7; UserUsername := "linuxdo_42"; UserDisplayName := "Neo";
     UserLinuxDoId := "42"; UserRole := 1; UserStatus := 1; UserInviterId := 0;
     UserAvatarUrl := "" |}.

(** The record [LinuxDoOAuth] hands to [Insert] in [sampleWorld]. *)
Definition sampleInsertedUser : User :=
  {| UserId := 0; UserUsername := "linuxdo_42"; UserDisplayName := "Neo";
     UserLinuxDoId := "42"; UserRole := 1; UserStatus := 1; UserInviterId := 0;
     UserAvatarUrl := "" |}.

(** The record [LinuxDoBind] hands to [Update] in [sampleWorld]. *)
Definition sampleBoundUser : User :=
  {| UserId := 7; UserUsername := ""; UserDisplayName := "";
     UserLinuxDoId := "42"; UserRole := 0; UserStatus := 0; UserInviterId := 0;
     UserAvatarUrl := "" |}.

End executions.

(** * Facts about the string helpers *)

Module strings_facts.

Import strings.

Lemma app_cons (a : Ascii.ascii) (s t : string) : String a s +:+ t = String a (s +:+ t).
Proof. reflexivity. Qed.

Lemma app_empty_l (s : string) : "" +:+ s = s.
Proof. reflexivity. Qed.

Ltac app_simpl := rewrite ?app_cons, ?app_empty_l in *; simpl in *.

Lemma length_app (s1 s2 : string) :
  String.length (s1 +:+ s2) = String.length s1 + String.length s2.
Proof. induction s1 as [|a s1 IH]; app_simpl; [done | by rewrite IH]. Qed.

Lemma app_empty_r (s : string) : s +:+ "" = s.
Proof. induction s as [|a s IH]; app_simpl; [done | by rewrite IH]. Qed.

Lemma app_assoc' (s1 s2 s3 : string) : (s1 +:+ s2) +:+ s3 = s1 +:+ (s2 +:+ s3).
Proof. induction s1 as [|a s1 IH]; app_simpl; [done | by rewrite IH]. Qed.

Lemma substring_0_0 (s : string) : String.substring 0 0 s = "".
Proof. by destruct s. Qed.

Lemma substring_take_app (p r : string) :
  String.substring 0 (String.length p) (p +:+ r) = p.
Proof.
  induction p as [|a p IH]; app_simpl; [apply substring_0_0 | by rewrite IH].
Qed.

Lemma substring_all (s : string) : String.substring 0 (String.length s) s = s.
Proof.
  pose proof (substring_take_app s "") as H. by rewrite app_empty_r in H.
Qed.

Lemma substring_drop_app (p r : string) :
  String.substring (String.length p) (String.length r) (p +:+ r) = r.
Proof. induction p as [|a p IH]; app_simpl; [apply substring_all | done]. Qed.

(** Cutting a string at any position within it loses nothing. *)
Lemma substring_split (s : string) (n : nat) :
  n ≤ String.length s →
  s = String.substring 0 n s +:+ String.substring n (String.length s - n) s.
Proof.
  revert n. induction s as [|a s IH]; intros [|n] Hn; simpl in *; try lia.
  - done.
  - by rewrite substring_all.
  - rewrite app_cons. f_equal. apply IH. lia.
Qed.

Lemma HasPrefix_iff (s prefix : string) :
  HasPrefix s prefix = true ↔ ∃ r, s = prefix +:+ r.
Proof.
  unfold HasPrefix. rewrite andb_true_iff, Nat.leb_le, String.eqb_eq. split.
  - intros [Hlen Hsub]. eexists.
    rewrite (substring_split s (String.length prefix)) at 1 by done.
    by rewrite Hsub.
  - intros [r ->]. rewrite length_app, substring_take_app. split; [lia | done].
Qed.

Lemma HasSuffix_iff (s suffix : string) :
  HasSuffix s suffix = true ↔ ∃ b, s = b +:+ suffix.
Proof.
  unfold HasSuffix. rewrite andb_true_iff, Nat.leb_le, String.eqb_eq. split.
  - intros [Hlen Hsub].
    exists (String.substring 0 (String.length s - String.length suffix) s).
    rewrite (substring_split s (String.length s - String.length suffix)) at 1 by lia.
    replace (String.length s - (String.length s - String.length suffix))
      with (String.length suffix) by lia.
    by rewrite Hsub.
  - intros [b ->]. rewrite length_app.
    replace (String.length b + String.length suffix - String.length suffix)
      with (String.length b) by lia.
    rewrite substring_drop_app. split; [lia | done].
Qed.

Lemma HasPrefix_false (s prefix : string) :
  HasPrefix s prefix = false ↔ ∀ r, s ≠ prefix +:+ r.
Proof.
  rewrite <- not_true_iff_false, HasPrefix_iff. split.
  - intros H r Heq. apply H. eauto.
  - intros H [r Heq]. by apply (H r).
Qed.

Lemma HasSuffix_false (s suffix : string) :
  HasSuffix s suffix = false ↔ ∀ b, s ≠ b +:+ suffix.
Proof.
  rewrite <- not_true_iff_false, HasSuffix_iff. split.
  - intros H b Heq. apply H. eauto.
  - intros H [b Heq]. by apply (H b).
Qed.

Lemma TrimPrefix_app (prefix r : string) : TrimPrefix (prefix +:+ r) prefix = r.
Proof.
  unfold TrimPrefix.
  rewrite (proj2 (HasPrefix_iff _ _)) by eauto.
  rewrite length_app.
  replace (String.length prefix + String.length r - String.length prefix)
    with (String.length r) by lia.
  apply substring_drop_app.
Qed.

Lemma TrimSuffix_app (b suffix : string) : TrimSuffix (b +:+ suffix) suffix = b.
Proof.
  unfold TrimSuffix.
  rewrite (proj2 (HasSuffix_iff _ _)) by eauto.
  rewrite length_app.
  replace (String.length b + String.length suffix - String.length suffix)
    with (String.length b) by lia.
  apply substring_take_app.
Qed.

Lemma TrimPrefix_none (s prefix : string) :
  (∀ r, s ≠ prefix +:+ r) → TrimPrefix s prefix = s.
Proof. intros H. unfold TrimPrefix. by rewrite (proj2 (HasPrefix_false _ _)). Qed.

Lemma TrimSuffix_none (s suffix : string) :
  (∀ b, s ≠ b +:+ suffix) → TrimSuffix s suffix = s.
Proof. intros H. unfold TrimSuffix. by rewrite (proj2 (HasSuffix_false _ _)). Qed.

(** A non-empty string ends in some byte. *)
Lemma snoc_cases (s : string) : s = "" ∨ ∃ s' a, s = s' +:+ String a "".
Proof.
  induction s as [|a s [->|(s' & b & ->)]]; [by left | right..].
  - by exists "", a.
  - by exists (String a s'), b.
Qed.

Lemma snoc_inj (s1 s2 : string) (a b : Ascii.ascii) :
  s1 +:+ String a "" = s2 +:+ String b "" → s1 = s2 ∧ a = b.
Proof.
  revert s2. induction s1 as [|c s1 IH]; intros [|d s2] H; app_simpl.
  - by injection H.
  - injection H as _ H. by destruct s2.
  - injection H as _ H. by destruct s1.
  - injection H as -> H. apply IH in H as [-> ->]. done.
Qed.

(** Trimming one trailing byte does not change whether a string starts
    with a prefix that does not itself end in that byte. *)
Lemma HasPrefix_TrimSuffix (s prefix : string) (a : Ascii.ascii) :
  HasSuffix prefix (String a "") = false →
  HasPrefix (TrimSuffix s (String a "")) prefix = HasPrefix s prefix.
Proof.
  intros Hpre. destruct (HasSuffix s (String a "")) eqn:Hsuf.
  - apply HasSuffix_iff in Hsuf as [b ->]. rewrite TrimSuffix_app.
    apply eq_true_iff_eq. rewrite !HasPrefix_iff. split.
    + intros [r ->]. exists (r +:+ String a ""). apply app_assoc'.
    + intros [r Hr]. destruct (snoc_cases r) as [->|(r' & c & ->)].
      * rewrite app_empty_r in Hr. subst prefix.
        rewrite (proj2 (HasSuffix_iff _ _)) in Hpre by eauto. done.
      * rewrite <- app_assoc' in Hr. apply snoc_inj in Hr as [-> _]. eauto.
  - unfold TrimSuffix. by rewrite Hsuf.
Qed.

End strings_facts.

(** * The Claude provider: tables, URL resolution, vendor errors *)

Module claude_spec.

Import claude samples strings_facts.

(** C5: the finish-reason table. "end_turn" and "stop_sequence" map to
    "stop", "max_tokens" to "length", "tool_use" to "tool_calls", "refusal"
    to "content_filter", and every other reason is returned as it came. *)
Theorem stopReasonClaude2OpenAI_table :
  stopReasonClaude2OpenAI "end_turn" = "stop"
  ∧ stopReasonClaude2OpenAI "stop_sequence" = "stop"
  ∧ stopReasonClaude2OpenAI "max_tokens" = "length"
  ∧ stopReasonClaude2OpenAI "tool_use" = "tool_calls"
  ∧ stopReasonClaude2OpenAI "refusal" = "content_filter"
  ∧ stopReasonClaude2OpenAI "unknown_vendor_reason" = "unknown_vendor_reason"
  ∧ ∀ reason : string,
      reason ≠ "end_turn" → reason ≠ "stop_sequence" → reason ≠ "max_tokens" →
      reason ≠ "tool_use" → reason ≠ "refusal" →
      stopReasonClaude2OpenAI reason = reason.
Proof.
  repeat split; try reflexivity.
  intros reason H1 H2 H3 H4 H5. unfold stopReasonClaude2OpenAI.
  by rewrite !bool_decide_eq_false_2.
Qed.

(** C6: the role table. "user", "tool" and "function" map to "user"; every
    other role, "assistant" and "system" among them, maps to "assistant". *)
Theorem convertRole_table :
  convertRole "user" = "user"
  ∧ convertRole "tool" = "user"
  ∧ convertRole "function" = "user"
  ∧ convertRole "assistant" = "assistant"
  ∧ convertRole "system" = "assistant"
  ∧ ∀ role : string,
      role ≠ "user" → role ≠ "tool" → role ≠ "function" →
      convertRole role = "assistant".
Proof.
  repeat split; try reflexivity.
  intros role H1 H2 H3. unfold convertRole.
  unfold types.ChatMessageRoleUser, types.ChatMessageRoleTool,
    types.ChatMessageRoleFunction.
  by rewrite !bool_decide_eq_false_2.
Qed.

(** The gateway prefix does not end in a slash, so trimming the base URL
    does not change whether it starts with the prefix. *)
Lemma gateway_prefix_trimmed (base : string) :
  strings.HasPrefix (strings.TrimSuffix base "/") cloudflareGateway
  = strings.HasPrefix base cloudflareGateway.
Proof. by apply HasPrefix_TrimSuffix. Qed.

(** C7: the full request URL is [base +:+ path], where [base] is the
    resolved base URL with one trailing slash trimmed, and [path] is the
    endpoint path, without its leading "/v1" when the base URL begins with
    the Cloudflare gateway prefix; with the two examples of the spec. *)
Theorem GetFullRequestURL_resolves :
  (∀ (p : ClaudeProvider) (requestURL : string),
     ∃ base path : string,
       GetFullRequestURL p requestURL = base +:+ path
       ∧ (GetBaseURL p = base +:+ "/"
          ∨ (GetBaseURL p = base ∧ ∀ b, base ≠ b +:+ "/"))
       ∧ ((∃ r, GetBaseURL p = cloudflareGateway +:+ r) →
          requestURL = "/v1" +:+ path
          ∨ (path = requestURL ∧ ∀ r, requestURL ≠ "/v1" +:+ r))
       ∧ ((∀ r, GetBaseURL p ≠ cloudflareGateway +:+ r) → path = requestURL))
  ∧ GetFullRequestURL (Create exampleChannel) "/v1/messages"
    = "https://api.example.com/v1/messages"
  ∧ GetFullRequestURL (Create gatewayChannel) "/v1/messages"
    = "https://gateway.ai.cloudflare.com/x/y/messages".
Proof.
  split; [|split; reflexivity].
  intros p requestURL. unfold GetFullRequestURL.
  rewrite gateway_prefix_trimmed.
  eexists _, _. split; [reflexivity|]. split; [|split].
  - destruct (strings.HasSuffix (GetBaseURL p) "/") eqn:Hsuf.
    + apply HasSuffix_iff in Hsuf as [b Hb]. left.
      rewrite Hb at 2. by rewrite TrimSuffix_app.
    + right. unfold strings.TrimSuffix. rewrite Hsuf. split; [done|].
      by apply HasSuffix_false.
  - intros Hgw. rewrite (proj2 (HasPrefix_iff _ _) Hgw).
    destruct (strings.HasPrefix requestURL "/v1") eqn:Hv1.
    + apply HasPrefix_iff in Hv1 as [r ->]. left. by rewrite TrimPrefix_app.
    + right. pose proof (proj1 (HasPrefix_false _ _) Hv1) as Hno.
      split; [by apply TrimPrefix_none | done].
  - intros Hgw. by rewrite (proj2 (HasPrefix_false _ _) Hgw).
Qed.

(** C8: the error-decode hook returns no normalized error when decoding
    the envelope fails or the decoded top-level type is empty; otherwise
    the normalized error carries the inner message, the inner type, and
    the top-level type as its code. *)
Theorem RequestErrorHandle_decodes
    (jsonDecode : string → option ClaudeError) (body : string) :
  (jsonDecode body = None → RequestErrorHandle jsonDecode body = None)
  ∧ (∀ e, jsonDecode body = Some e → ErrType e = "" →
          RequestErrorHandle jsonDecode body = None)
  ∧ (∀ e, jsonDecode body = Some e → ErrType e ≠ "" →
          RequestErrorHandle jsonDecode body
          = Some {| types.Message := InfoMessage (ErrorInfo e);
                    types.Type_ := InfoType (ErrorInfo e);
                    types.Code := ErrType e |}).
Proof.
  unfold RequestErrorHandle, errorHandle. split; [|split].
  - by intros ->.
  - intros e -> Hty. by rewrite bool_decide_eq_true_2.
  - intros e -> Hty. by rewrite bool_decide_eq_false_2.
Qed.

(** The hook is [errorHandle] on whatever was decoded, and [errorHandle]
    answers nothing for a nil envelope. *)
Lemma RequestErrorHandle_errorHandle
    (jsonDecode : string → option ClaudeError) (body : string) :
  RequestErrorHandle jsonDecode body = errorHandle (jsonDecode body).
Proof. unfold RequestErrorHandle. by destruct (jsonDecode body). Qed.

(** The 401 scenario: an envelope of type "authentication_error" with the
    message "invalid x-api-key". *)
Example RequestErrorHandle_authentication_error :
  RequestErrorHandle sampleJsonDecode "401-body"
  = Some {| types.Message := "invalid x-api-key";
            types.Type_ := "authentication_error";
            types.Code := "error" |}
  ∧ RequestErrorHandle sampleJsonDecode "<html>bad gateway</html>" = None
  ∧ RequestErrorHandle sampleJsonDecode "{}" = None.
Proof. repeat split. Qed.

End claude_spec.

(** * The merge engine *)

Module merge_spec.

Import claude samples.

Implicit Types (requestMap customParams active : gmap string value).
Implicit Types (entries : list (string * value)) (k key : string) (v : value).

(** ** Flags, read off the spec map *)

Lemma shouldOverwrite_true customParams :
  shouldOverwrite customParams = true ↔ customParams !! "overwrite" = Some (VBool true).
Proof.
  unfold shouldOverwrite.
  destruct (customParams !! "overwrite") as [[| [] | | | |]|]; simpl; naive_solver.
Qed.

Lemma perModel_true customParams :
  perModel customParams = true ↔ customParams !! "per_model" = Some (VBool true).
Proof.
  unfold perModel.
  destruct (customParams !! "per_model") as [[| [] | | | |]|]; simpl; naive_solver.
Qed.

Lemma preAddSet_true customParams :
  preAddSet customParams = true ↔ customParams !! "pre_add" = Some (VBool true).
Proof.
  unfold preAddSet.
  destruct (customParams !! "pre_add") as [[| [] | | | |]|]; simpl; naive_solver.
Qed.

Lemma preAddSet_false customParams :
  preAddSet customParams = false ↔ customParams !! "pre_add" ≠ Some (VBool true).
Proof. rewrite <- preAddSet_true. by destruct (preAddSet customParams). Qed.

Lemma isControlKey_true k :
  isControlKey k = true
  ↔ k = "stream" ∨ k = "overwrite" ∨ k = "per_model" ∨ k = "pre_add".
Proof.
  unfold isControlKey. rewrite !orb_true_iff, !bool_decide_eq_true. tauto.
Qed.

(** ** One iteration *)

Lemma mergeEntry_other overwrite requestMap key v k :
  key ≠ k → mergeEntry overwrite requestMap key v !! k = requestMap !! k.
Proof.
  intros Hne. unfold mergeEntry.
  destruct (isControlKey key); [done|].
  destruct overwrite; [by rewrite lookup_insert_ne|].
  destruct (requestMap !! key); [done | by rewrite lookup_insert_ne].
Qed.

Lemma mergeEntry_control overwrite requestMap key v :
  isControlKey key = true → mergeEntry overwrite requestMap key v = requestMap.
Proof. intros H. unfold mergeEntry. by rewrite H. Qed.

Lemma mergeEntry_same overwrite requestMap key v :
  isControlKey key = false →
  mergeEntry overwrite requestMap key v !! key
  = if overwrite then Some v
    else match requestMap !! key with Some old => Some old | None => Some v end.
Proof.
  intros H. unfold mergeEntry. rewrite H.
  destruct overwrite; [by rewrite lookup_insert_eq|].
  destruct (requestMap !! key) eqn:Hk; [done | by rewrite lookup_insert_eq].
Qed.

(** ** The loop, over any enumeration *)

Lemma rangeLoop_absent overwrite entries requestMap k :
  k ∉ entries.*1 → rangeLoop overwrite entries requestMap !! k = requestMap !! k.
Proof.
  revert requestMap. induction entries as [|[key v] entries IH]; intros requestMap Hk.
  - done.
  - simpl in *. apply not_elem_of_cons in Hk as [Hne Hk].
    rewrite IH by done. by apply mergeEntry_other.
Qed.

Lemma rangeLoop_control overwrite entries requestMap k :
  isControlKey k = true → rangeLoop overwrite entries requestMap !! k = requestMap !! k.
Proof.
  intros Hctl. revert requestMap.
  induction entries as [|[key v] entries IH]; intros requestMap; [done|].
  simpl. rewrite IH. destruct (decide (key = k)) as [->|Hne].
  - by rewrite mergeEntry_control.
  - by apply mergeEntry_other.
Qed.

Lemma rangeLoop_present overwrite entries requestMap k v :
  NoDup entries.*1 → (k, v) ∈ entries → isControlKey k = false →
  rangeLoop overwrite entries requestMap !! k
  = if overwrite then Some v
    else match requestMap !! k with Some old => Some old | None => Some v end.
Proof.
  intros Hnd Hin Hctl. revert requestMap Hnd Hin.
  induction entries as [|[key w] entries IH]; intros requestMap Hnd Hin.
  - by apply elem_of_nil in Hin.
  - simpl in *. apply NoDup_cons in Hnd as [Hfresh Hnd].
    apply elem_of_cons in Hin as [[= <- <-]|Hin].
    + rewrite rangeLoop_absent by done. by apply mergeEntry_same.
    + assert (key ≠ k) as Hne.
      { intros ->. apply Hfresh. apply list_elem_of_fmap. by exists (k, v). }
      rewrite IH by done. by rewrite mergeEntry_other.
Qed.

Lemma rangeLoop_lookup overwrite entries requestMap active k :
  entries ≡ₚ map_to_list active →
  rangeLoop overwrite entries requestMap !! k
  = mergedLookup overwrite requestMap active k.
Proof.
  intros Hperm. unfold mergedLookup.
  destruct (isControlKey k) eqn:Hctl; [by apply rangeLoop_control|].
  assert (NoDup entries.*1) as Hnd.
  { rewrite Hperm. apply NoDup_fst_map_to_list. }
  destruct (active !! k) as [v|] eqn:Hk.
  - assert ((k, v) ∈ entries) as Hin.
    { rewrite Hperm. by apply elem_of_map_to_list. }
    by rewrite (rangeLoop_present _ _ _ k v Hnd Hin Hctl).
  - rewrite rangeLoop_absent.
    + by destruct overwrite, (requestMap !! k).
    + rewrite Hperm. intros [[k' v] [-> Hin]]%list_elem_of_fmap.
      apply elem_of_map_to_list in Hin. simpl in *. congruence.
Qed.

(** The order in which the runtime enumerates the active set does not
    matter. *)
Lemma rangeLoop_order overwrite entries requestMap active :
  entries ≡ₚ map_to_list active →
  rangeLoop overwrite entries requestMap
  = rangeLoop overwrite (map_to_list active) requestMap.
Proof.
  intros Hperm. apply map_eq. intros k.
  by rewrite (rangeLoop_lookup _ _ _ active), (rangeLoop_lookup _ _ _ active).
Qed.

(** ** The whole call, key by key *)

Lemma mergeCustomParams_lookup requestMap customParams k :
  mergeCustomParams requestMap customParams !! k
  = if preAddSet customParams then requestMap !! k
    else mergedLookup (shouldOverwrite customParams) requestMap
           (customParamsModel requestMap customParams) k.
Proof.
  unfold mergeCustomParams. destruct (preAddSet customParams); [done|].
  by apply rangeLoop_lookup.
Qed.

Lemma rangeLoop_empty_set overwrite requestMap :
  rangeLoop overwrite (map_to_list (∅ : gmap string value)) requestMap = requestMap.
Proof. by rewrite map_to_list_empty. Qed.

End merge_spec.

(** * The merge engine: the claims *)

Module merge_claims.

Import claude samples merge_spec.

Implicit Types (B S : gmap string value) (k : string) (v : value).

(** C1, as stated, fails: with [pre_add] true the engine returns the body
    untouched, so an overwriting spec does not install its keys. Here
    "temperature" is a non-reserved key of the active set of an overwriting
    spec, and the merged body has no "temperature" at all. *)
Lemma mergeCustomParams_overwrite_blocked_by_pre_add :
  specPreAdd !! "overwrite" = Some (VBool true)
  ∧ customParamsModel (∅ : gmap string value) specPreAdd !! "temperature"
    = Some (VNumber 0.5%float)
  ∧ isControlKey "temperature" = false
  ∧ mergeCustomParams ∅ specPreAdd !! "temperature" = None.
Proof. repeat split; vm_compute; reflexivity. Qed.

(** C1 (amended): for every body B, spec S and non-reserved key k of the
    active parameter set with value v: if S's overwrite flag is true and
    S's pre_add is not the boolean true, the merged body holds v at k; if
    the overwrite flag is false or absent and k is already present in B,
    the merged body holds B's original value at k. *)
Theorem mergeCustomParams_precedence B S k v :
  customParamsModel B S !! k = Some v →
  isControlKey k = false →
  (S !! "overwrite" = Some (VBool true) → S !! "pre_add" ≠ Some (VBool true) →
   mergeCustomParams B S !! k = Some v)
  ∧ (shouldOverwrite S = false →
     ∀ old, B !! k = Some old → mergeCustomParams B S !! k = Some old).
Proof.
  intros Hk Hctl. rewrite mergeCustomParams_lookup. unfold mergedLookup.
  rewrite Hctl, Hk. split.
  - intros How%shouldOverwrite_true Hpre%preAddSet_false. by rewrite Hpre, How.
  - intros -> old ->. by destruct (preAddSet S).
Qed.

Lemma mergeCustomParams_precedence_witness :
  mergeCustomParams bodyChat specOverwrite !! "temperature" = Some (VNumber 0.5%float)
  ∧ mergeCustomParams bodyChat specKeep !! "temperature" = Some (VNumber 1%float).
Proof.
  split.
  - refine (proj1 (mergeCustomParams_precedence bodyChat specOverwrite "temperature"
                     (VNumber 0.5%float) _ _) _ _).
    + vm_compute; reflexivity.
    + vm_compute; reflexivity.
    + vm_compute; reflexivity.
    + vm_compute. discriminate.
  - refine (proj2 (mergeCustomParams_precedence bodyChat specKeep "temperature"
                     (VNumber 0.5%float) _ _) _ (VNumber 1%float) _).
    + vm_compute; reflexivity.
    + vm_compute; reflexivity.
    + vm_compute; reflexivity.
    + vm_compute; reflexivity.
Defined.

(** C2: the code departs from the claim on a body without a string
    "model". Such a body has no matching entry in the spec, and both
    branches that find no sub-map install the empty set; but the type
    assertion on the model has no else branch, so the whole spec stays
    active: its top-level knob and the sub-map of another model are copied
    into the body. *)
Lemma mergeCustomParams_per_model_without_model :
  specPerModel !! "per_model" = Some (VBool true)
  ∧ bodyNoModel !! "model" = None
  ∧ bodyNoModel !! "top_p" = None
  ∧ mergeCustomParams bodyNoModel specPerModel !! "top_p" = Some (VNumber 0.75%float)
  ∧ mergeCustomParams bodyNoModel specPerModel !! "claude-3-haiku"
    = Some (VObject (<["top_k" := VNumber 5%float]> ∅))
  ∧ mergeCustomParams bodyNoModel specPerModel ≠ bodyNoModel
  ∧ bodyNumericModel !! "model" = Some (VNumber 3%float)
  ∧ mergeCustomParams bodyNumericModel specPerModel ≠ bodyNumericModel.
Proof.
  repeat split; try (vm_compute; reflexivity).
  - intros H. apply (f_equal (λ m : gmap string value, m !! "top_p")) in H.
    vm_compute in H. discriminate.
  - intros H. apply (f_equal (λ m : gmap string value, m !! "top_p")) in H.
    vm_compute in H. discriminate.
Qed.

(** Where the body's "model" is a string the code does what C2 says: for
    every body B whose "model" field is a string m, and every spec S whose
    per_model flag is true and in which m is absent or bound to something
    that is not a key-value map, the merge returns B with no key added. *)
Theorem mergeCustomParams_per_model_no_entry B S (m : string) :
  S !! "per_model" = Some (VBool true) →
  B !! "model" = Some (VString m) →
  (S !! m = None ∨ ∃ v, S !! m = Some v ∧ asObject v = None) →
  mergeCustomParams B S = B.
Proof.
  intros Hper%perModel_true Hmodel Hentry.
  unfold mergeCustomParams. destruct (preAddSet S); [done|].
  assert (customParamsModel B S = ∅) as ->.
  { unfold customParamsModel. rewrite Hper, Hmodel. simpl.
    destruct Hentry as [->|(v & -> & ->)]; done. }
  apply rangeLoop_empty_set.
Qed.

Lemma mergeCustomParams_per_model_no_entry_witness :
  mergeCustomParams bodyChat specPerModel = bodyChat
  ∧ mergeCustomParams bodyChat specPerModelScalar = bodyChat.
Proof.
  split.
  - apply (mergeCustomParams_per_model_no_entry bodyChat specPerModel "claude-3-opus").
    + vm_compute; reflexivity.
    + vm_compute; reflexivity.
    + left. vm_compute; reflexivity.
  - apply (mergeCustomParams_per_model_no_entry bodyChat specPerModelScalar
             "claude-3-opus").
    + vm_compute; reflexivity.
    + vm_compute; reflexivity.
    + right. exists (VString "fast"). split; vm_compute; reflexivity.
Defined.

(** C3: when the spec's pre_add field is the boolean true, the merge
    returns the body unchanged. *)
Theorem mergeCustomParams_pre_add B S :
  S !! "pre_add" = Some (VBool true) → mergeCustomParams B S = B.
Proof.
  intros Hpre%preAddSet_true. unfold mergeCustomParams. by rewrite Hpre.
Qed.

Lemma mergeCustomParams_pre_add_witness :
  mergeCustomParams bodyChat specPreAdd = bodyChat.
Proof.
  apply (mergeCustomParams_pre_add bodyChat specPreAdd). vm_compute; reflexivity.
Defined.

(** C4: the four reserved control keys "stream", "overwrite", "per_model"
    and "pre_add" are never copied from the active set, top-level or
    model-scoped: the body's binding of each (or its absence) is the same
    before and after the merge. *)
Theorem mergeCustomParams_control_keys_untouched B S k :
  k ∈ ["stream"; "overwrite"; "per_model"; "pre_add"] →
  mergeCustomParams B S !! k = B !! k.
Proof.
  intros Hk. assert (isControlKey k = true) as Hctl.
  { repeat (apply elem_of_cons in Hk as [->|Hk]; [done|]).
    by apply elem_of_nil in Hk. }
  rewrite mergeCustomParams_lookup. unfold mergedLookup. rewrite Hctl.
  by destruct (preAddSet S).
Qed.

Lemma mergeCustomParams_control_keys_untouched_witness :
  mergeCustomParams bodyChat specNested !! "stream" = bodyChat !! "stream"
  ∧ mergeCustomParams bodyChat specNested !! "pre_add" = bodyChat !! "pre_add"
  ∧ mergeCustomParams bodyChat specOverwrite !! "stream" = bodyChat !! "stream".
Proof.
  split; [|split].
  - apply (mergeCustomParams_control_keys_untouched bodyChat specNested "stream").
    apply list_elem_of_here.
  - apply (mergeCustomParams_control_keys_untouched bodyChat specNested "pre_add").
    do 3 apply list_elem_of_further. apply list_elem_of_here.
  - apply (mergeCustomParams_control_keys_untouched bodyChat specOverwrite "stream").
    apply list_elem_of_here.
Defined.

(** The nested sample really merges: the model's knob arrives, the control
    keys of the sub-map do not. *)
Example mergeCustomParams_nested_sample :
  mergeCustomParams bodyChat specNested !! "top_k" = Some (VNumber 5%float)
  ∧ mergeCustomParams bodyChat specNested !! "stream" = Some (VBool false)
  ∧ mergeCustomParams bodyChat specNested !! "pre_add" = None.
Proof. repeat split; vm_compute; reflexivity. Qed.

End merge_claims.

(** * The OAuth controller: the claims *)

Module controller_spec.

Import controller samples.

Section WithCollaborators.

Variable decodeOAuthResponse : string → result LinuxDoOAuthResponse.
Variable decodeLinuxDoUser : string → result LinuxDoUser.
Variable config : Config.

#[local] Abbreviation userInfoByCode :=
  (getLinuxDoUserInfoByCode decodeOAuthResponse decodeLinuxDoUser config).

(** Running a bind is running its two halves in turn. *)
Lemma run_bind {A B : Type} (w : World) (trace : list Event)
    (p : prog A) (f : A → prog B) :
  run w trace (bind p f)
  = match run w trace p with
    | (Some a, trace') => run w trace' (f a)
    | (None, trace') => (None, trace')
    end.
Proof.
  revert trace. induction p as [a|e k IH|]; intros trace; simpl; [done| |done].
  apply IH.
Qed.

(** The trace only grows. *)
Lemma run_trace_extends {A : Type} (w : World) (trace : list Event) (p : prog A) :
  trace `prefix_of` (run w trace p).2.
Proof.
  revert trace. induction p as [a|e k IH|]; intros trace; simpl; [done| |done].
  etrans; [|apply IH]. by apply prefix_app_r.
Qed.

(** With a code and both credentials present, the first thing the function
    does is post to the token endpoint. *)
Lemma getLinuxDoUserInfoByCode_posts (code : string) :
  code ≠ "" → LinuxDoClientId config ≠ "" → LinuxDoClientSecret config ≠ "" →
  ∃ req k, userInfoByCode code = Vis (ClientDo req) k
           ∧ Method req = "POST" ∧ URL req = linuxDoTokenEndpoint
           ∧ Form req = [("client_id", LinuxDoClientId config);
                         ("client_secret", LinuxDoClientSecret config);
                         ("code", code);
                         ("grant_type", "authorization_code")].
Proof.
  intros Hcode Hid Hsecret. unfold getLinuxDoUserInfoByCode.
  rewrite !bool_decide_eq_false_2 by done. simpl.
  eexists _, _. split; [reflexivity|]. done.
Qed.

(** The guard rejects exactly the three cases. *)
Lemma stateRejected_true (c : Context) :
  Query c "state" = ""
  ∨ SessionGet c "oauth_state" = None
  ∨ (∃ stored, SessionGet c "oauth_state" = Some (SString stored)
               ∧ Query c "state" ≠ stored) →
  stateRejected c = Ret true.
Proof.
  unfold stateRejected. intros H.
  destruct (decide (Query c "state" = "")) as [Hempty|Hstate].
  { by rewrite bool_decide_eq_true_2. }
  rewrite bool_decide_eq_false_2 by done.
  destruct H as [H|[->|(stored & -> & Hne)]]; [done|done|].
  by rewrite bool_decide_eq_false_2.
Qed.

End WithCollaborators.

(** C9: when the authorization code is empty, or the configured client id
    or client secret is empty, [getLinuxDoUserInfoByCode] returns an error
    having made no call at all, so before any outbound HTTP request: in
    every world the run ends with an error and an empty trace. *)
Theorem getLinuxDoUserInfoByCode_fails_fast
    (decodeOAuthResponse : string → result LinuxDoOAuthResponse)
    (decodeLinuxDoUser : string → result LinuxDoUser)
    (config : Config) (code : string) :
  code = "" ∨ LinuxDoClientId config = "" ∨ LinuxDoClientSecret config = "" →
  ∃ err : error,
    ∀ w : World,
      run w [] (getLinuxDoUserInfoByCode decodeOAuthResponse decodeLinuxDoUser config code)
      = (Some (Err err), []).
Proof.
  intros H. unfold getLinuxDoUserInfoByCode.
  destruct (decide (code = "")) as [Hcode|Hcode].
  { rewrite bool_decide_eq_true_2 by done. by eexists. }
  rewrite bool_decide_eq_false_2 by done.
  destruct H as [H|H]; [done|].
  assert (bool_decide (LinuxDoClientId config = "")
          || bool_decide (LinuxDoClientSecret config = "") = true) as ->.
  { apply orb_true_iff. rewrite !bool_decide_eq_true. done. }
  by eexists.
Qed.

Lemma getLinuxDoUserInfoByCode_fails_fast_witness :
  (∃ err : error,
     ∀ w : World,
       run w [] (getLinuxDoUserInfoByCode sampleDecodeOAuth sampleDecodeUser
                   sampleConfig "")
       = (Some (Err err), []))
  ∧ (∃ err : error,
       ∀ w : World,
         run w [] (getLinuxDoUserInfoByCode sampleDecodeOAuth sampleDecodeUser
                     unconfigured "abc")
         = (Some (Err err), [])).
Proof.
  split.
  - apply (getLinuxDoUserInfoByCode_fails_fast sampleDecodeOAuth sampleDecodeUser
             sampleConfig "").
    left. reflexivity.
  - apply (getLinuxDoUserInfoByCode_fails_fast sampleDecodeOAuth sampleDecodeUser
             unconfigured "abc").
    right. right. reflexivity.
Defined.

(** C10, as stated, fails: the guard asserts the stored "oauth_state" to be
    a string without checking. Here the session holds a number, the state
    parameter differs from it, and the handler panics: it makes no call at
    all, so it sends no 403. *)
Lemma LinuxDoOAuth_foreign_state_sends_no_403 :
  Query ctxForeignState "state" = "s3cr3t"
  ∧ SessionGet ctxForeignState "oauth_state" = Some (SInt 5)
  ∧ run sampleWorld []
      (LinuxDoOAuth sampleDecodeOAuth sampleDecodeUser sampleConfig ctxForeignState)
    = (None, []).
Proof. repeat split; vm_compute; reflexivity. Qed.

(** C10 (amended): when the "state" query parameter is empty, or the
    session holds no "oauth_state", or the session's stored "oauth_state"
    is a string that differs from the parameter, [LinuxDoOAuth] answers
    HTTP 403 and returns: in every world the run's whole trace is that one
    answer, so no token exchange, user lookup, user creation or login takes
    place. *)
Theorem LinuxDoOAuth_rejects_state
    (decodeOAuthResponse : string → result LinuxDoOAuthResponse)
    (decodeLinuxDoUser : string → result LinuxDoUser)
    (config : Config) (c : Context) :
  Query c "state" = ""
  ∨ SessionGet c "oauth_state" = None
  ∨ (∃ stored, SessionGet c "oauth_state" = Some (SString stored)
               ∧ Query c "state" ≠ stored) →
  ∀ w : World,
    run w [] (LinuxDoOAuth decodeOAuthResponse decodeLinuxDoUser config c)
    = (Some tt, [CtxJSON 403 false "state is empty or not same"]).
Proof.
  intros H w. unfold LinuxDoOAuth.
  rewrite (stateRejected_true c H). simpl. by destruct (w [] _).
Qed.

Lemma LinuxDoOAuth_rejects_state_witness :
  run sampleWorld [] (LinuxDoOAuth sampleDecodeOAuth sampleDecodeUser sampleConfig ctxNoState)
  = (Some tt, [forbidden])
  ∧ run sampleWorld [] (LinuxDoOAuth sampleDecodeOAuth sampleDecodeUser sampleConfig ctxNoSession)
    = (Some tt, [forbidden])
  ∧ run sampleWorld [] (LinuxDoOAuth sampleDecodeOAuth sampleDecodeUser sampleConfig ctxForged)
    = (Some tt, [forbidden]).
Proof.
  split; [|split].
  - apply (LinuxDoOAuth_rejects_state sampleDecodeOAuth sampleDecodeUser sampleConfig
             ctxNoState).
    left. reflexivity.
  - apply (LinuxDoOAuth_rejects_state sampleDecodeOAuth sampleDecodeUser sampleConfig
             ctxNoSession).
    right. left. reflexivity.
  - apply (LinuxDoOAuth_rejects_state sampleDecodeOAuth sampleDecodeUser sampleConfig
             ctxForged).
    right. right. exists "s3cr3t". split; [reflexivity | discriminate].
Defined.

(** A stored state that is not a string makes the guard's type assertion
    panic before anything is answered. *)
Lemma LinuxDoOAuth_panics_on_foreign_state
    (decodeOAuthResponse : string → result LinuxDoOAuthResponse)
    (decodeLinuxDoUser : string → result LinuxDoUser)
    (config : Config) (c : Context) (n : Z) :
  Query c "state" ≠ "" → SessionGet c "oauth_state" = Some (SInt n) →
  ∀ w : World,
    run w [] (LinuxDoOAuth decodeOAuthResponse decodeLinuxDoUser config c) = (None, []).
Proof.
  intros Hstate Hget w. unfold LinuxDoOAuth, stateRejected.
  rewrite bool_decide_eq_false_2 by done. by rewrite Hget.
Qed.

(** A callback that passes the guard goes on to the identity provider and
    logs the new user in. *)
Example LinuxDoOAuth_accepts_matching_state :
  let r := run sampleWorld []
             (LinuxDoOAuth sampleDecodeOAuth sampleDecodeUser sampleConfig ctxGood) in
  r.1 = Some tt
  ∧ isNetwork <$> r.2 = [true; true; false; false; false]
  ∧ last r.2
    = Some (SetupLogin {| UserId := 7; UserUsername := "linuxdo_42";
                          UserDisplayName := "Neo"; UserLinuxDoId := "42";
                          UserRole := 1; UserStatus := 1; UserInviterId := 0;
                          UserAvatarUrl := "" |}).
Proof. repeat split. Qed.

(** Past the guard, a missing code or an unconfigured client is answered
    with HTTP 200 and the error, still without any network call. *)
Example LinuxDoOAuth_configuration_errors :
  run sampleWorld [] (LinuxDoOAuth sampleDecodeOAuth sampleDecodeUser sampleConfig ctxNoCode)
  = (Some tt, [CtxJSON 200 false "无效的参数"])
  ∧ run sampleWorld [] (LinuxDoOAuth sampleDecodeOAuth sampleDecodeUser unconfigured ctxGood)
    = (Some tt, [CtxJSON 200 false "LinuxDo OAuth 配置不完整"]).
Proof. repeat split. Qed.

End controller_spec.

(** * The merge engine: further properties *)

Module merge_extras.

Import claude samples merge_samples merge_spec.

Implicit Types (B S active : gmap string value) (k : string) (v : value).

Lemma installable_lookup active k :
  installable active !! k = if isControlKey k then None else active !! k.
Proof.
  unfold installable. destruct (isControlKey k) eqn:Hctl.
  - apply map_lookup_filter_None. right. intros v _. simpl. congruence.
  - destruct (active !! k) as [v|] eqn:Hk.
    + by apply map_lookup_filter_Some.
    + apply map_lookup_filter_None. by left.
Qed.

(** X1: the merge is the left-biased union of the body and the non-control
    entries of the active set: the entries first when overwriting, the body
    first otherwise; under pre_add it is the body. *)
Theorem mergeCustomParams_union B S :
  mergeCustomParams B S
  = if preAddSet S then B
    else if shouldOverwrite S
         then installable (customParamsModel B S) ∪ B
         else B ∪ installable (customParamsModel B S).
Proof.
  apply map_eq. intros k. rewrite mergeCustomParams_lookup.
  destruct (preAddSet S); [done|]. unfold mergedLookup.
  destruct (shouldOverwrite S); rewrite lookup_union, installable_lookup;
    destruct (isControlKey k), (customParamsModel B S !! k), (B !! k); done.
Qed.

(** X2: Go enumerates a map in no fixed order; whichever order the loop
    meets the entries of the active set in, the merged body is the same. *)
Theorem mergeCustomParams_any_order B S (entries : list (string * value)) :
  S !! "pre_add" ≠ Some (VBool true) →
  entries ≡ₚ map_to_list (customParamsModel B S) →
  rangeLoop (shouldOverwrite S) entries B = mergeCustomParams B S.
Proof.
  intros Hpre%preAddSet_false Hperm. unfold mergeCustomParams. rewrite Hpre.
  apply map_eq. intros k.
  by rewrite !(rangeLoop_lookup _ _ _ (customParamsModel B S)).
Qed.

Lemma mergeCustomParams_any_order_witness :
  rangeLoop (shouldOverwrite specOverwrite)
    (reverse (map_to_list (customParamsModel bodyChat specOverwrite))) bodyChat
  = mergeCustomParams bodyChat specOverwrite.
Proof.
  apply (mergeCustomParams_any_order bodyChat specOverwrite).
  - vm_compute. discriminate.
  - apply reverse_Permutation.
Defined.

(** X3: without a true overwrite flag every binding of the body survives
    the merge: the body is a sub-map of the result. *)
Theorem mergeCustomParams_keeps_body B S :
  S !! "overwrite" ≠ Some (VBool true) → B ⊆ mergeCustomParams B S.
Proof.
  intros How. assert (shouldOverwrite S = false) as Hno.
  { apply not_true_is_false. by rewrite shouldOverwrite_true. }
  apply map_subseteq_spec. intros k old Hold.
  rewrite mergeCustomParams_lookup, Hno.
  destruct (preAddSet S); [done|]. unfold mergedLookup. rewrite Hold.
  by destruct (isControlKey k).
Qed.

Lemma mergeCustomParams_keeps_body_witness :
  bodyChat ⊆ mergeCustomParams bodyChat specKeep
  ∧ bodyChat ⊆ mergeCustomParams bodyChat specStringFlags.
Proof.
  split.
  - apply (mergeCustomParams_keeps_body bodyChat specKeep). vm_compute. discriminate.
  - apply (mergeCustomParams_keeps_body bodyChat specStringFlags).
    vm_compute. discriminate.
Defined.

(** X4: the merge never removes a key, and every binding of the result is
    either the body's own or a non-control entry of the active set. *)
Theorem mergeCustomParams_provenance B S :
  dom B ⊆ dom (mergeCustomParams B S)
  ∧ ∀ k v, mergeCustomParams B S !! k = Some v →
           B !! k = Some v
           ∨ (isControlKey k = false ∧ customParamsModel B S !! k = Some v).
Proof.
  split.
  - intros k [old Hold]%elem_of_dom. apply elem_of_dom.
    rewrite mergeCustomParams_lookup. destruct (preAddSet S); [by rewrite Hold|].
    unfold mergedLookup. rewrite Hold.
    destruct (isControlKey k), (shouldOverwrite S), (customParamsModel B S !! k); eauto.
  - intros k v. rewrite mergeCustomParams_lookup.
    destruct (preAddSet S); [by left|]. unfold mergedLookup.
    destruct (isControlKey k), (shouldOverwrite S), (customParamsModel B S !! k),
      (B !! k); naive_solver.
Qed.

(** X5: a spec whose active set holds nothing but control keys leaves the
    body as it is. *)
Theorem mergeCustomParams_control_only B S :
  (∀ k, is_Some (customParamsModel B S !! k) → isControlKey k = true) →
  mergeCustomParams B S = B.
Proof.
  intros Hall. apply map_eq. intros k. rewrite mergeCustomParams_lookup.
  destruct (preAddSet S); [done|]. unfold mergedLookup.
  destruct (isControlKey k) eqn:Hctl; [done|].
  destruct (customParamsModel B S !! k) as [v|] eqn:Hk.
  - rewrite Hall in Hctl by eauto. done.
  - by destruct (shouldOverwrite S), (B !! k).
Qed.

Lemma mergeCustomParams_control_only_witness :
  mergeCustomParams bodyChat specControlOnly = bodyChat.
Proof.
  apply (mergeCustomParams_control_only bodyChat specControlOnly).
  intros k [v Hk]. unfold isControlKey.
  assert (customParamsModel bodyChat specControlOnly = specControlOnly) as Heq
    by (vm_compute; reflexivity).
  rewrite Heq in Hk. unfold specControlOnly in Hk.
  repeat (apply lookup_insert_Some in Hk as [[<- _]|[_ Hk]]; [done|]).
  by rewrite lookup_empty in Hk.
Defined.

(** X6: under per_model with a sub-map for the request's model, only the
    sub-map is applied: a key the sub-map does not bind keeps the body's
    binding, whatever the top level of the spec holds for it. *)
Theorem mergeCustomParams_per_model_shadows_top_level B S (m : string)
    (modelConfig : gmap string value) k :
  S !! "per_model" = Some (VBool true) →
  B !! "model" = Some (VString m) →
  S !! m = Some (VObject modelConfig) →
  modelConfig !! k = None →
  mergeCustomParams B S !! k = B !! k.
Proof.
  intros Hper%perModel_true Hmodel Hm Hk. rewrite mergeCustomParams_lookup.
  destruct (preAddSet S); [done|].
  assert (customParamsModel B S = modelConfig) as ->.
  { unfold customParamsModel. rewrite Hper, Hmodel. simpl. by rewrite Hm. }
  unfold mergedLookup. rewrite Hk.
  by destruct (isControlKey k), (shouldOverwrite S), (B !! k).
Qed.

Lemma mergeCustomParams_per_model_shadows_top_level_witness :
  specPerModelOpus !! "top_p" = Some (VNumber 0.75%float)
  ∧ mergeCustomParams bodyChat specPerModelOpus !! "top_p" = bodyChat !! "top_p".
Proof.
  split; [vm_compute; reflexivity|].
  apply (mergeCustomParams_per_model_shadows_top_level bodyChat specPerModelOpus
           "claude-3-opus"
           (<["top_k" := VNumber 5%float]>
              (<["overwrite" := VBool true]>
                 (<["temperature" := VNumber 0.25%float]> ∅)))).
  - vm_compute; reflexivity.
  - vm_compute; reflexivity.
  - vm_compute; reflexivity.
  - vm_compute; reflexivity.
Defined.

(** X7: when per_model is off, merging the same spec a second time changes
    nothing. *)
Theorem mergeCustomParams_idempotent B S :
  S !! "per_model" ≠ Some (VBool true) →
  mergeCustomParams (mergeCustomParams B S) S = mergeCustomParams B S.
Proof.
  intros Hper. assert (perModel S = false) as Hno.
  { apply not_true_is_false. by rewrite perModel_true. }
  assert (∀ B', customParamsModel B' S = S) as Hactive.
  { intros B'. unfold customParamsModel. by rewrite Hno. }
  apply map_eq. intros k.
  rewrite (mergeCustomParams_lookup (mergeCustomParams B S)).
  destruct (preAddSet S) eqn:Hpre; [done|].
  rewrite Hactive. unfold mergedLookup.
  rewrite mergeCustomParams_lookup, Hpre, Hactive. unfold mergedLookup.
  destruct (isControlKey k); [done|].
  destruct (shouldOverwrite S), (S !! k), (B !! k); done.
Qed.

Lemma mergeCustomParams_idempotent_witness :
  mergeCustomParams (mergeCustomParams bodyChat specOverwrite) specOverwrite
  = mergeCustomParams bodyChat specOverwrite.
Proof.
  apply (mergeCustomParams_idempotent bodyChat specOverwrite).
  vm_compute. discriminate.
Defined.

(** With per_model on, a second merge can go further than the first: the
    first may change the model the second looks up. *)
Example mergeCustomParams_per_model_not_idempotent :
  mergeCustomParams bodyModelA specRenaming !! "y" = None
  ∧ mergeCustomParams (mergeCustomParams bodyModelA specRenaming) specRenaming !! "y"
    = Some (VNumber 2%float).
Proof. split; vm_compute; reflexivity. Qed.

End merge_extras.

(** * The Claude provider: further properties *)

Module claude_extras.

Import claude claude_headers samples.

(** X8: a normalized finish reason is never one of the five vendor
    spellings the table translates, and normalizing twice is normalizing
    once. *)
Theorem stopReasonClaude2OpenAI_normal (reason : string) :
  (stopReasonClaude2OpenAI reason
     ∉ ["end_turn"; "stop_sequence"; "max_tokens"; "tool_use"; "refusal"])
  ∧ stopReasonClaude2OpenAI (stopReasonClaude2OpenAI reason)
    = stopReasonClaude2OpenAI reason.
Proof.
  assert (∀ r, r ≠ "end_turn" → r ≠ "stop_sequence" → r ≠ "max_tokens" →
               r ≠ "tool_use" → r ≠ "refusal" →
               (r ∉ ["end_turn"; "stop_sequence"; "max_tokens"; "tool_use"; "refusal"])
               ∧ stopReasonClaude2OpenAI r = r) as Hfixed.
  { intros r H1 H2 H3 H4 H5. split.
    - rewrite !not_elem_of_cons. repeat split; try done. apply not_elem_of_nil.
    - unfold stopReasonClaude2OpenAI. by rewrite !bool_decide_eq_false_2. }
  destruct (decide (reason = "end_turn")) as [->|?].
  { change (stopReasonClaude2OpenAI "end_turn") with "stop". by apply Hfixed. }
  destruct (decide (reason = "stop_sequence")) as [->|?].
  { change (stopReasonClaude2OpenAI "stop_sequence") with "stop". by apply Hfixed. }
  destruct (decide (reason = "max_tokens")) as [->|?].
  { change (stopReasonClaude2OpenAI "max_tokens") with "length". by apply Hfixed. }
  destruct (decide (reason = "tool_use")) as [->|?].
  { change (stopReasonClaude2OpenAI "tool_use") with "tool_calls". by apply Hfixed. }
  destruct (decide (reason = "refusal")) as [->|?].
  { change (stopReasonClaude2OpenAI "refusal") with "content_filter". by apply Hfixed. }
  destruct (Hfixed reason) as [Hout Heq]; [done..|]. by rewrite !Heq.
Qed.

(** X9: a converted role is "user" or "assistant", whatever the role was,
    and converting twice is converting once. *)
Theorem convertRole_range (role : string) :
  (convertRole role = "user" ∨ convertRole role = "assistant")
  ∧ convertRole (convertRole role) = convertRole role.
Proof.
  unfold convertRole. repeat (case_bool_decide; simpl); subst; split; auto.
Qed.

(** X10: the error hook answers only for a decoded envelope, and an error
    it answers with always has a non-empty code: the envelope's top-level
    type; the message and the type may be empty. *)
Theorem RequestErrorHandle_code_not_empty
    (jsonDecode : string → option ClaudeError) (body : string)
    (err : types.OpenAIError) :
  RequestErrorHandle jsonDecode body = Some err →
  types.Code err ≠ ""
  ∧ ∃ e, jsonDecode body = Some e
         ∧ types.Code err = ErrType e
         ∧ types.Message err = InfoMessage (ErrorInfo e)
         ∧ types.Type_ err = InfoType (ErrorInfo e).
Proof.
  unfold RequestErrorHandle, errorHandle.
  destruct (jsonDecode body) as [e|]; [|done].
  case_bool_decide; [done|]. intros [= <-]. split; [done|]. by exists e.
Qed.

Lemma RequestErrorHandle_code_not_empty_witness :
  types.Code {| types.Message := ""; types.Type_ := ""; types.Code := "overloaded_error" |}
    ≠ ""
  ∧ ∃ e, sampleBareDecode "overloaded" = Some e
         ∧ "overloaded_error" = ErrType e
         ∧ "" = InfoMessage (ErrorInfo e)
         ∧ "" = InfoType (ErrorInfo e).
Proof.
  apply (RequestErrorHandle_code_not_empty sampleBareDecode "overloaded"
           {| types.Message := ""; types.Type_ := ""; types.Code := "overloaded_error" |}).
  reflexivity.
Defined.

(** X11: whatever the common headers hold, the request headers carry the
    channel's key as "x-api-key" and a version as "anthropic-version" that
    is never empty: the caller's, or "2023-06-01" when the caller sent
    none; every other common header is passed on as it is. *)
Theorem GetRequestHeaders_vendor_headers
    (CommonRequestHeaders : gmap string string → gmap string string)
    (p : ClaudeProvider) (requestVersion : string) :
  GetRequestHeaders CommonRequestHeaders p requestVersion !! "x-api-key"
  = Some (Key (Channel_ p))
  ∧ (∃ version,
       GetRequestHeaders CommonRequestHeaders p requestVersion !! "anthropic-version"
       = Some version
       ∧ version ≠ ""
       ∧ (requestVersion ≠ "" → version = requestVersion)
       ∧ (requestVersion = "" → version = "2023-06-01"))
  ∧ ∀ name, name ≠ "x-api-key" → name ≠ "anthropic-version" →
            GetRequestHeaders CommonRequestHeaders p requestVersion !! name
            = CommonRequestHeaders ∅ !! name.
Proof.
  unfold GetRequestHeaders. split; [|split].
  - rewrite lookup_insert_ne by done. apply lookup_insert_eq.
  - eexists. rewrite lookup_insert_eq. split; [reflexivity|].
    case_bool_decide; repeat split; done.
  - intros name H1 H2. by rewrite !lookup_insert_ne.
Qed.

(** The vendor headers win over common headers of the same name. *)
Example GetRequestHeaders_overrides_common :
  GetRequestHeaders sampleCommonHeaders (Create exampleChannel) "" !! "x-api-key"
  = Some "sk-test"
  ∧ GetRequestHeaders sampleCommonHeaders (Create exampleChannel) ""
      !! "anthropic-version"
    = Some "2023-06-01"
  ∧ GetRequestHeaders sampleCommonHeaders (Create exampleChannel) "2024-01-01"
      !! "anthropic-version"
    = Some "2024-01-01".
Proof. repeat split; vm_compute; reflexivity. Qed.

End claude_extras.

(** * The OAuth controller: further properties *)

Module controller_extras.

Import controller samples executions.

Lemma allRuns_sound {A : Type} (Q : list Event → option A → Prop)
    (trace : list Event) (p : prog A) :
  allRuns Q trace p → ∀ w : World, Q (run w trace p).2 (run w trace p).1.
Proof.
  revert trace. induction p as [a|e k IH|]; intros trace Hall w; simpl in *; [done| |done].
  apply IH, Hall.
Qed.

Lemma allRuns_mono {A : Type} (Q Q' : list Event → option A → Prop)
    (trace : list Event) (p : prog A) :
  (∀ tr r, Q tr r → Q' tr r) → allRuns Q trace p → allRuns Q' trace p.
Proof.
  intros Himp. revert trace. induction p as [a|e k IH|]; intros trace; simpl; [auto| |auto].
  intros Hall x. apply IH, Hall.
Qed.

Lemma allRuns_bind {A B : Type} (Q : list Event → option B → Prop)
    (trace : list Event) (p : prog A) (f : A → prog B) :
  allRuns (λ tr r, match r with
                   | Some a => allRuns Q tr (f a)
                   | None => Q tr None
                   end) trace p →
  allRuns Q trace (p ≫= f).
Proof.
  revert trace. induction p as [a|e k IH|]; intros trace; simpl; [done| |done].
  intros Hall x. apply IH, Hall.
Qed.

Section WithCollaborators.

Variable decodeOAuthResponse : string → result LinuxDoOAuthResponse.
Variable decodeLinuxDoUser : string → result LinuxDoUser.
Variable config : Config.

#[local] Abbreviation info :=
  (getLinuxDoUserInfoByCode decodeOAuthResponse decodeLinuxDoUser config).

#[local] Arguments Itoa : simpl never.

(** Walking a handler: reduce, and split on whatever the program, at its
    head, is waiting for. *)
Ltac scrutinee p k :=
  lazymatch p with
  | bind ?q _ => scrutinee q k
  | match ?x with _ => _ end => k x
  end.

Ltac explore :=
  repeat (cbn;
          match goal with
          | |- ∀ _, _ => intros ?
          | |- allRuns _ _ ?p => scrutinee p ltac:(fun x => destruct x eqn:?)
          end).

#[local] Arguments oauthContract : simpl never.
#[local] Arguments infoContract : simpl never.

Ltac tidy :=
  repeat match goal with
    | H : bool_decide _ = true |- _ => apply bool_decide_eq_true in H
    | H : bool_decide _ = false |- _ => apply bool_decide_eq_false in H
    | H : negb _ = true |- _ => apply negb_true_iff in H
    | H : negb _ = false |- _ => apply negb_false_iff in H
    | H : _ || _ = false |- _ => apply orb_false_iff in H as [? ?]
    | H : _ || _ = true |- _ => apply orb_true_iff in H as [?|?]
    | H : _ && _ = true |- _ => apply andb_true_iff in H as [? ?]
    | H : _ && _ = false |- _ => apply andb_false_iff in H as [?|?]
    end.

(** Closing a leaf: follow the shape of the goal down to facts that the
    case analysis has put in the context. *)
Ltac leaf :=
  lazymatch goal with
  | |- _ ∧ _ => split; leaf
  | |- ∃ _, _ => eexists; leaf
  | |- context [bool_decide _] => case_bool_decide; leaf
  | |- _ ∨ _ => first [ solve [left; leaf] | solve [right; leaf] ]
  | |- _ → _ => first [ solve [intros [=]] | intros ?; leaf ]
  | |- _ => first [ eassumption | reflexivity | discriminate | congruence | lia ]
  end.

(** Membership in a list that is written out. *)
Ltac pick H :=
  repeat (apply elem_of_cons in H as [H|H]; [try discriminate H|]);
  try (by apply elem_of_nil in H).

Lemma getLinuxDoUserInfoByCode_contract (code : string) :
  allRuns (infoContract decodeOAuthResponse decodeLinuxDoUser config code) []
    (info code).
Proof.
  unfold getLinuxDoUserInfoByCode, call, mbind, prog_bind, mret, prog_ret.
  explore.
  all: tidy.
  all: split; [ repeat apply Forall_cons_2; [..|apply Forall_nil_2] | ].
  all: try (cbn; solve [leaf]).
  all: split; [cbn; lia|].
  all: split; [|intros msg Hin; pick Hin; injection Hin as <-; by split].
  all: cbn; unfold ownErrors.
  all: try solve [left; repeat first [apply list_elem_of_here | apply list_elem_of_further]].
  all: solve [leaf].
Qed.

Lemma LinuxDoOAuth_contract (c : Context) :
  allRuns (oauthContract decodeLinuxDoUser config c) []
    (LinuxDoOAuth decodeOAuthResponse decodeLinuxDoUser config c).
Proof.
  unfold LinuxDoOAuth, LinuxDoBind, stateRejected, registerUser, getUserByLinuxDo,
    getLinuxDoUserInfoByCode, fail, call, mbind, prog_bind, mret, prog_ret.
  explore.
  all: tidy.
  all: first [ assert (stateMatches c) as Hmatch by (split; congruence)
             | assert (¬ stateMatches c) as Hmatch by (intros [? ?]; congruence)
             | idtac ].
  all: split; [ repeat apply Forall_cons_2; [..|apply Forall_nil_2] | unfold traceOK ].
  all: cbn; unfold vouched, freshUser, StatusOK, StatusForbidden; cbn.
  all: leaf.
Qed.

#[local] Abbreviation oauth :=
  (LinuxDoOAuth decodeOAuthResponse decodeLinuxDoUser config).

Lemma getLinuxDoUserInfoByCode_run (w : World) (code : string) :
  infoContract decodeOAuthResponse decodeLinuxDoUser config code
    (run w [] (info code)).2 (run w [] (info code)).1.
Proof. apply allRuns_sound, getLinuxDoUserInfoByCode_contract. Qed.

Lemma LinuxDoOAuth_run (w : World) (c : Context) :
  oauthContract decodeLinuxDoUser config c (run w [] (oauth c)).2 (run w [] (oauth c)).1.
Proof. apply allRuns_sound, LinuxDoOAuth_contract. Qed.

Lemma LinuxDoOAuth_event (w : World) (c : Context) (e : Event) :
  e ∈ (run w [] (oauth c)).2 → eventOK decodeLinuxDoUser config c e.
Proof.
  intros Hin. destruct (LinuxDoOAuth_run w c) as [Hall _].
  by apply (proj1 (Forall_forall _ _) Hall).
Qed.

Lemma existsb_elem_of (f : Event → bool) (trace : list Event) (e : Event) :
  e ∈ trace → f e = true → List.existsb f trace = true.
Proof.
  intros Hin Hf. apply List.existsb_exists. exists e.
  split; [by apply list_elem_of_In | done].
Qed.

(** Walking one run: reduce, and split on what the world answers and on
    what the program tests, in the order the program meets them. *)
Ltac walk :=
  repeat (cbn;
          match goal with
          | |- context [run _ _ ?p] => scrutinee p ltac:(fun x => destruct x eqn:?)
          end).

Ltac own_error :=
  unfold ownErrors; repeat first [apply list_elem_of_here | apply list_elem_of_further].

(** X12: a user comes back from [getLinuxDoUserInfoByCode] only with a
    non-zero id, and only in a run where the token request was answered
    200 with a body that decodes to a non-empty access token, and the user
    request carrying that very token was answered 200 with a body that
    decodes to the user returned; those two requests are all it called. *)
Theorem getLinuxDoUserInfoByCode_success (w : World) (code : string)
    (linuxDoUser : LinuxDoUser) :
  (run w [] (info code)).1 = Some (Ok linuxDoUser) →
  Id linuxDoUser ≠ 0%Z
  ∧ ∃ res oauthResponse res2,
      w [] (ClientDo (tokenRequest config code)) = Ok res
      ∧ StatusCode res = 200%Z
      ∧ decodeOAuthResponse (Body res) = Ok oauthResponse
      ∧ AccessToken oauthResponse ≠ ""
      ∧ w [ClientDo (tokenRequest config code)]
          (ClientDo (userRequest (AccessToken oauthResponse))) = Ok res2
      ∧ StatusCode res2 = 200%Z
      ∧ decodeLinuxDoUser (Body res2) = Ok linuxDoUser
      ∧ (run w [] (info code)).2
        = [ClientDo (tokenRequest config code);
           ClientDo (userRequest (AccessToken oauthResponse))].
Proof.
  unfold getLinuxDoUserInfoByCode, call, mbind, prog_bind, mret, prog_ret,
    tokenRequest, userRequest.
  walk.
  all: try (by intros [=]).
  all: intros [= <-]; tidy; unfold StatusOK in *.
  all: leaf.
Qed.

(** X13: [getLinuxDoUserInfoByCode] never panics; an error it returns is
    one of its five own messages, or the error the decoder reported on the
    body of this run's 200 answer to the token request, or to the user
    request; and when [client.Do] itself fails, on either request, what it
    returns is one of its own messages, not the error of [client.Do]. *)
Theorem getLinuxDoUserInfoByCode_errors (w : World) (code : string) :
  (run w [] (info code)).1 ≠ None
  ∧ (∀ err, (run w [] (info code)).1 = Some (Err err) →
       err ∈ ownErrors
       ∨ (∃ res,
            w [] (ClientDo (tokenRequest config code)) = Ok res
            ∧ StatusCode res = 200%Z
            ∧ decodeOAuthResponse (Body res) = Err err)
       ∨ (∃ res oauthResponse res2,
            w [] (ClientDo (tokenRequest config code)) = Ok res
            ∧ decodeOAuthResponse (Body res) = Ok oauthResponse
            ∧ w [ClientDo (tokenRequest config code)]
                (ClientDo (userRequest (AccessToken oauthResponse))) = Ok res2
            ∧ StatusCode res2 = 200%Z
            ∧ decodeLinuxDoUser (Body res2) = Err err))
  ∧ (∀ raw,
       w [] (ClientDo (tokenRequest config code)) = Err raw
       ∨ (∃ res oauthResponse,
            w [] (ClientDo (tokenRequest config code)) = Ok res
            ∧ decodeOAuthResponse (Body res) = Ok oauthResponse
            ∧ w [ClientDo (tokenRequest config code)]
                (ClientDo (userRequest (AccessToken oauthResponse))) = Err raw) →
       ∃ err, (run w [] (info code)).1 = Some (Err err) ∧ err ∈ ownErrors).
Proof.
  unfold getLinuxDoUserInfoByCode, call, mbind, prog_bind, mret, prog_ret,
    tokenRequest, userRequest.
  walk.
  all: tidy; unfold StatusOK in *.
  all: split; [done|split].
  all: try (by intros ? [=]).
  all: try (intros err [= <-]; first [ left; solve [own_error]
                                    | right; solve [leaf] ]).
  all: intros raw [Hraw|(res & oauthResponse & Hres & Hdec & Hraw)].
  all: try discriminate Hraw; try discriminate Hres; try injection Hres as <-.
  all: repeat match goal with
         | H1 : ?x = _, H2 : ?x = _ |- _ =>
             rewrite H1 in H2; first [discriminate H2 | injection H2 as <-]
         end.
  all: eexists; (split; [reflexivity|own_error]).
Qed.

(** X14: [getLinuxDoUserInfoByCode] calls nothing but the HTTP client and
    the error log, makes at most two requests, and each request is either
    the token request (the only one that carries the client secret) or a
    user request with a non-empty access token. *)
Theorem getLinuxDoUserInfoByCode_calls (w : World) (code : string) :
  Forall (infoEventOK config code) (run w [] (info code)).2
  ∧ length (List.filter isNetwork (run w [] (info code)).2) ≤ 2.
Proof.
  destruct (getLinuxDoUserInfoByCode_run w code) as (Hev & Hnet & _). done.
Qed.

(** X15: when [getLinuxDoUserInfoByCode] logs a failure, that is the last
    thing it does, and what it returns is the generic message. *)
Theorem getLinuxDoUserInfoByCode_logged_failure (w : World) (code msg : string) :
  SysError msg ∈ (run w [] (info code)).2 →
  last (run w [] (info code)).2 = Some (SysError msg)
  ∧ (run w [] (info code)).1 = Some (Err errUnreachable).
Proof.
  destruct (getLinuxDoUserInfoByCode_run w code) as (_ & _ & _ & Hlog).
  apply Hlog.
Qed.

(** X16: a run of [LinuxDoOAuth] that does not panic answers exactly once,
    and the answer is the last thing it does; a run that panics has not
    answered. *)
Theorem LinuxDoOAuth_answers_once (w : World) (c : Context) :
  match (run w [] (oauth c)).1 with
  | Some _ =>
      (∃ a, last (run w [] (oauth c)).2 = Some a ∧ isAnswer a = true)
      ∧ length (List.filter isAnswer (run w [] (oauth c)).2) = 1
  | None => List.filter isAnswer (run w [] (oauth c)).2 = []
  end.
Proof. by destruct (LinuxDoOAuth_run w c) as (_ & Hans & _). Qed.

(** X17: with LinuxDo login switched off, [LinuxDoOAuth] makes no network
    call, does not touch the store and logs nobody in: whatever it does is
    a JSON answer that reports failure. *)
Theorem LinuxDoOAuth_disabled (w : World) (c : Context) (e : Event) :
  LinuxDoOAuthEnabled config = false →
  e ∈ (run w [] (oauth c)).2 →
  ∃ status message, e = CtxJSON status false message.
Proof.
  intros Hoff Hin%LinuxDoOAuth_event.
  destruct e; cbn in Hin; try (destruct Hin as (_ & Hon & _); congruence).
  destruct success; [|by eauto].
  destruct Hin as [(_ & ? & _)|(_ & _ & Hok)]; [done|].
  destruct Hok as (_ & _ & Hon); [done|congruence].
Qed.

(** X18: [LinuxDoOAuth] reaches the user store, or logs a user in, only in
    a run that began with the token request and the user request. *)
Theorem LinuxDoOAuth_identity_first (w : World) (c : Context) (e : Event) :
  e ∈ (run w [] (oauth c)).2 →
  needsIdentity e = true →
  ∃ accessToken rest,
    (run w [] (oauth c)).2
    = ClientDo (tokenRequest config (Query c "code"))
      :: ClientDo (userRequest accessToken) :: rest
    ∧ accessToken ≠ "".
Proof.
  intros Hin He. destruct (LinuxDoOAuth_run w c) as (_ & _ & _ & Hid & _).
  apply Hid. by apply (existsb_elem_of _ _ e).
Qed.

(** X19: [LinuxDoOAuth] logs in only a user whose status is the enabled
    one, only when the callback's state matches the session's, only with
    LinuxDo login switched on, and never in a session that already has a
    user. *)
Theorem LinuxDoOAuth_login (w : World) (c : Context) (user : User) :
  SetupLogin user ∈ (run w [] (oauth c)).2 →
  UserStatus user = UserStatusEnabled config
  ∧ stateMatches c
  ∧ LinuxDoOAuthEnabled config = true
  ∧ SessionGet c "username" = None.
Proof.
  intros Hin%LinuxDoOAuth_event. cbn in Hin. tauto.
Qed.

(** X20: every record [LinuxDoOAuth] inserts is a fresh common user:
    registration is open, the record has no id yet, the common role, the
    enabled status, the username "linuxdo_" followed by its LinuxDo id, a
    display name that is not empty, an inviter only when the inviter id is
    positive, and a LinuxDo id decoded from an active identity of trust
    level 1 or more. *)
Theorem LinuxDoOAuth_inserts_fresh_user (w : World) (c : Context)
    (user : User) (inviterId : Z) :
  UserInsert user inviterId ∈ (run w [] (oauth c)).2 →
  freshUser decodeLinuxDoUser config user inviterId.
Proof.
  intros Hin%LinuxDoOAuth_event. cbn in Hin. tauto.
Qed.


(** X22: the bind flow loads the record of the session's own user id, and
    the record it updates carries a LinuxDo id decoded from the identity
    provider's payload; it never asks for a password update. *)
Theorem LinuxDoOAuth_bind_records (w : World) (c : Context) (e : Event) :
  e ∈ (run w [] (oauth c)).2 →
  match e with
  | UserFillById user => SessionGet c "id" = Some (SInt (UserId user))
  | UserUpdate user updatePassword =>
      updatePassword = false ∧ vouched decodeLinuxDoUser (UserLinuxDoId user)
  | _ => True
  end.
Proof.
  intros Hin%LinuxDoOAuth_event. destruct e; cbn in *; try done; tauto.
Qed.


End WithCollaborators.

(** ** The properties at the sample collaborators *)

Ltac in_trace :=
  apply list_elem_of_In; vm_compute; repeat (first [left; reflexivity | right]).

Lemma getLinuxDoUserInfoByCode_success_witness :
  Id sampleLinuxDoUser ≠ 0%Z
  ∧ ∃ res oauthResponse res2,
      sampleWorld [] (ClientDo (tokenRequest sampleConfig "abc")) = Ok res
      ∧ StatusCode res = 200%Z
      ∧ sampleDecodeOAuth (Body res) = Ok oauthResponse
      ∧ AccessToken oauthResponse ≠ ""
      ∧ sampleWorld [ClientDo (tokenRequest sampleConfig "abc")]
          (ClientDo (userRequest (AccessToken oauthResponse))) = Ok res2
      ∧ StatusCode res2 = 200%Z
      ∧ sampleDecodeUser (Body res2) = Ok sampleLinuxDoUser
      ∧ (run sampleWorld []
           (getLinuxDoUserInfoByCode sampleDecodeOAuth sampleDecodeUser sampleConfig "abc")).2
        = [ClientDo (tokenRequest sampleConfig "abc");
           ClientDo (userRequest (AccessToken oauthResponse))].
Proof.
  apply (getLinuxDoUserInfoByCode_success sampleDecodeOAuth sampleDecodeUser
           sampleConfig sampleWorld "abc" sampleLinuxDoUser).
  vm_compute. reflexivity.
Defined.

Lemma getLinuxDoUserInfoByCode_logged_failure_witness :
  last (run worldDown []
          (getLinuxDoUserInfoByCode sampleDecodeOAuth sampleDecodeUser sampleConfig "abc")).2
  = Some (SysError "无法连接至 LinuxDo 服务器(token), err:dial tcp: connection refused")
  ∧ (run worldDown []
       (getLinuxDoUserInfoByCode sampleDecodeOAuth sampleDecodeUser sampleConfig "abc")).1
    = Some (Err errUnreachable).
Proof.
  apply (getLinuxDoUserInfoByCode_logged_failure sampleDecodeOAuth sampleDecodeUser
           sampleConfig worldDown "abc").
  in_trace.
Defined.

Lemma LinuxDoOAuth_disabled_witness :
  ∃ status message, CtxJSON 200 false msgDisabled = CtxJSON status false message.
Proof.
  apply (LinuxDoOAuth_disabled sampleDecodeOAuth sampleDecodeUser configDisabled
           sampleWorld ctxGood).
  - reflexivity.
  - in_trace.
Defined.

Lemma LinuxDoOAuth_identity_first_witness :
  ∃ accessToken rest,
    (run sampleWorld []
       (LinuxDoOAuth sampleDecodeOAuth sampleDecodeUser sampleConfig ctxGood)).2
    = ClientDo (tokenRequest sampleConfig (Query ctxGood "code"))
      :: ClientDo (userRequest accessToken) :: rest
    ∧ accessToken ≠ "".
Proof.
  apply (LinuxDoOAuth_identity_first sampleDecodeOAuth sampleDecodeUser sampleConfig
           sampleWorld ctxGood (SetupLogin sampleNewUser)).
  - in_trace.
  - reflexivity.
Defined.

Lemma LinuxDoOAuth_login_witness :
  UserStatus sampleNewUser = UserStatusEnabled sampleConfig
  ∧ stateMatches ctxGood
  ∧ LinuxDoOAuthEnabled sampleConfig = true
  ∧ SessionGet ctxGood "username" = None.
Proof.
  apply (LinuxDoOAuth_login sampleDecodeOAuth sampleDecodeUser sampleConfig
           sampleWorld ctxGood sampleNewUser).
  in_trace.
Defined.

Lemma LinuxDoOAuth_inserts_fresh_user_witness :
  freshUser sampleDecodeUser sampleConfig sampleInsertedUser 0.
Proof.
  apply (LinuxDoOAuth_inserts_fresh_user sampleDecodeOAuth sampleDecodeUser sampleConfig
           sampleWorld ctxGood sampleInsertedUser 0).
  in_trace.
Defined.


Lemma LinuxDoOAuth_bind_records_witness :
  false = false ∧ vouched sampleDecodeUser (UserLinuxDoId sampleBoundUser).
Proof.
  apply (LinuxDoOAuth_bind_records sampleDecodeOAuth sampleDecodeUser sampleConfig
           sampleWorld ctxBind (UserUpdate sampleBoundUser false)).
  in_trace.
Defined.


End controller_extras.
